(** * Job lifecycle and refresh-session store of the OASIS backend

    A shallow embedding of [src/core/job_manager.py], [src/core/auth_service.py]
    and the job endpoints of [api.py], together with the properties of the
    job state machine, tenant scoping, token rotation and the background
    execution orchestrator. *)

From Stdlib Require Import QArith Qminmax.
From Stdlib Require Import Ascii.
From Stdlib Require DecimalString DecimalZ.
From stdpp Require Import gmap strings list fin_maps sorting.

Local Open Scope string_scope.
Local Open Scope Z_scope.

(** ** The Python runtime the code runs on *)

(** An aware UTC [datetime], as microseconds since the epoch. *)
Definition Instant := Z.

(** What the code takes from the standard library without defining it:
    [datetime.isoformat] / [datetime.fromisoformat], [repr] on strings
    (used by [str(KeyError(msg))]) and [pathlib.Path.suffix].  Only two facts about them are used: an
    ISO rendering is never the empty string, and parsing inverts rendering. *)
Class PyRuntime := {
  isoformat : Instant → string;
  fromisoformat : string → option Instant;
  py_repr : string → string;
  path_suffix : string → string;
  isoformat_nonempty : ∀ t, isoformat t ≠ "";
  fromisoformat_isoformat : ∀ t, fromisoformat (isoformat t) = Some t
}.

(** Exceptions raised inside the core and by its collaborators. *)
Inductive Exn :=
| ValueError (msg : string)
| KeyError (msg : string)
| RuntimeError (msg : string)
| FileNotFoundError (msg : string)
| IntegrityError (msg : string)
| InvalidTokenError (msg : string)
| OSError (msg : string)
| Exception (msg : string).

(** [str(error)]: the message, except that [KeyError] shows the [repr] of
    its argument. *)
Definition exn_str `{PyRuntime} (e : Exn) : string :=
  match e with
  | KeyError msg => py_repr msg
  | ValueError msg | RuntimeError msg | FileNotFoundError msg
  | IntegrityError msg | InvalidTokenError msg | OSError msg
  | Exception msg => msg
  end.

(** Truthiness of an [Optional[str]]: [None] and [""] are falsy. *)
Definition truthy (o : option string) : bool :=
  match o with
  | Some s => negb (String.eqb s "")
  | None => false
  end.

(** Python's two-argument [max] and [min] on numbers: the first argument
    wins unless the second is strictly better. *)
Definition py_max (a b : Q) : Q := if Qlt_le_dec a b then b else a.
Definition py_min (a b : Q) : Q := if Qlt_le_dec b a then b else a.

(** ** State and exceptions

    Every store operation commits before it returns, so a write survives an
    exception raised later in the same call: the state is threaded through
    both outcomes. *)
Inductive Outcome (E A : Type) :=
| Raise (e : E)
| Return (a : A).
Arguments Raise {E A} e.
Arguments Return {E A} a.

Definition M (S E A : Type) : Type := S → Outcome E A * S.

Definition ret {S E A} (a : A) : M S E A := λ s, (Return a, s).
Definition raise {S E A} (e : E) : M S E A := λ s, (Raise e, s).
Definition bind {S E A B} (m : M S E A) (k : A → M S E B) : M S E B :=
  λ s, match m s with
       | (Return a, s') => k a s'
       | (Raise e, s') => (Raise e, s')
       end.
Definition get_state {S E} : M S E S := λ s, (Return s, s).
Definition modify {S E} (f : S → S) : M S E unit := λ s, (Return tt, f s).

#[export] Instance M_ret {S E} : MRet (M S E) := @ret S E.
#[export] Instance M_bind {S E} : MBind (M S E) := λ A B k m, bind m k.

(** ** Rows of the three tables *)

(** JSON values held in a job's open parameter map. *)
#[warnings="-register-all"]
Inductive JValue :=
| JNull
| JBool (b : bool)
| JInt (z : Z)
| JFloat (q : Q)
| JStr (s : string)
| JList (l : list JValue).

(** The [parameters] column holds [json.dumps] of a dict and is read back
    with [json.loads]; the row carries the decoded dict. *)
Abbreviation Params := (gmap string JValue).

Record User := mkUser {
  u_user_id : string;
  u_email : option string;
  u_password_hash : option string;
  u_full_name : option string;
  u_role : string;
  u_is_active : Z;
  u_created_at : string;
  u_last_seen_at : string
}.

Record Session := mkSession {
  s_jti : string;
  s_user_id : string;
  s_expires_at : string;
  s_created_at : string;
  s_revoked_at : option string;
  s_replaced_by_jti : option string
}.

Record Job := mkJob {
  j_job_id : string;
  j_user_id : string;
  j_status : string;
  j_progress_percent : Q;
  j_error_message : option string;
  j_input_file : option string;
  j_results_csv : option string;
  j_parameters : Params;
  j_created_at : string;
  j_completed_at : option string;
  j_output_dir : option string
}.

(** The database: each table keyed by its [PRIMARY KEY]. *)
Record Store := mkStore {
  users : gmap string User;
  refresh_sessions : gmap string Session;
  jobs : gmap string Job
}.

Definition empty_store : Store := mkStore ∅ ∅ ∅.

Definition with_jobs (f : gmap string Job → gmap string Job) (db : Store) : Store :=
  mkStore (users db) (refresh_sessions db) (f (jobs db)).
Definition with_sessions
    (f : gmap string Session → gmap string Session) (db : Store) : Store :=
  mkStore (users db) (f (refresh_sessions db)) (jobs db).
Definition with_users (f : gmap string User → gmap string User) (db : Store) : Store :=
  mkStore (f (users db)) (refresh_sessions db) (jobs db).

(** The monad of the core: the store, and Python exceptions. *)
Abbreviation DB := (M Store Exn).

(** ** [JobManager] *)

Definition VALID_STATUSES : list string :=
  ["queued"; "processing"; "completed"; "failed"].

Definition _utc_now_iso `{PyRuntime} (now : Instant) : string := isoformat now.

Definition _validate_status (status : string) : DB unit :=
  if bool_decide (status ∈ VALID_STATUSES) then mret tt
  else raise (ValueError ("Invalid status '" +:+ status
         +:+ "'. Valid: ['completed', 'failed', 'processing', 'queued']")).

(** [INSERT INTO refresh_sessions]: a second row with the same [jti] violates
    the primary key. *)
Definition create_refresh_session `{PyRuntime}
    (jti user_id expires_at : string) (now : Instant) : DB unit :=
  db ← get_state;
  match refresh_sessions db !! jti with
  | Some _ => raise (IntegrityError "UNIQUE constraint failed: refresh_sessions.jti")
  | None =>
      modify (with_sessions
        <[jti := mkSession jti user_id expires_at (_utc_now_iso now) None None]>)
  end.

Definition get_refresh_session (jti : string) : DB (option Session) :=
  db ← get_state; mret (refresh_sessions db !! jti).

(** SQL [COALESCE(a, b)]. *)
Definition COALESCE {A} (a b : option A) : option A :=
  match a with Some _ => a | None => b end.

(** [UPDATE refresh_sessions SET revoked_at = ?, replaced_by_jti =
    COALESCE(?, replaced_by_jti) WHERE jti = ?]. *)
Definition revoke_refresh_session `{PyRuntime}
    (jti : string) (replaced_by_jti : option string) (now : Instant) : DB unit :=
  modify (with_sessions (alter (λ s,
    mkSession (s_jti s) (s_user_id s) (s_expires_at s) (s_created_at s)
              (Some (_utc_now_iso now))
              (COALESCE replaced_by_jti (s_replaced_by_jti s))) jti)).

Definition get_user_by_id (user_id : string) : DB (option User) :=
  db ← get_state; mret (users db !! user_id).

(** [SELECT ... FROM jobs WHERE job_id = ?]: no owner in the predicate. *)
Definition get_job (job_id : string) : DB (option Job) :=
  db ← get_state; mret (jobs db !! job_id).

(** [SELECT ... FROM jobs WHERE job_id = ? AND user_id = ?]. *)
Definition select_job_for_user (db : Store) (user_id job_id : string) : option Job :=
  match jobs db !! job_id with
  | Some j => if String.eqb (j_user_id j) user_id then Some j else None
  | None => None
  end.

Definition get_job_for_user (user_id job_id : string) : DB (option Job) :=
  db ← get_state; mret (select_job_for_user db user_id job_id).

(** [UPDATE jobs SET ... WHERE job_id = ? AND user_id = ?]. *)
Definition sql_update_job (job_id user_id : string) (f : Job → Job) : DB unit :=
  modify (λ db,
    match jobs db !! job_id with
    | Some j =>
        if String.eqb (j_user_id j) user_id
        then with_jobs <[job_id := f j]> db
        else db
    | None => db
    end).

(** [str(p) if p else None]. *)
Definition str_if_truthy (p : option string) : option string :=
  if truthy p then p else None.

(** [uuid] is the value [uuid.uuid4()] draws when no [job_id] is passed. *)
Definition create_job `{PyRuntime} (user_id : string)
    (input_file : option string) (parameters : option Params)
    (output_dir results_csv job_id : option string)
    (uuid : string) (now : Instant) : DB Job :=
  let job_id := if truthy job_id then default uuid job_id else uuid in
  let status := "queued" in
  let created_at := _utc_now_iso now in
  db ← get_state;
  match jobs db !! job_id with
  | Some _ => raise (IntegrityError "UNIQUE constraint failed: jobs.job_id")
  | None =>
      modify (with_jobs
        <[job_id := mkJob job_id user_id status 0 None
                      (str_if_truthy input_file) (str_if_truthy results_csv)
                      (default ∅ parameters) created_at None
                      (str_if_truthy output_dir)]>);;
      job ← get_job_for_user user_id job_id;
      match job with
      | None => raise (RuntimeError "Job creation failed.")
      | Some job => mret job
      end
  end.

Definition is_terminal (status : string) : bool :=
  String.eqb status "completed" || String.eqb status "failed".
Definition is_nonterminal (status : string) : bool :=
  String.eqb status "queued" || String.eqb status "processing".

(** Lines 343-347: the terminal rule for [completed_at]. *)
Definition final_completed_at `{PyRuntime} (status : string)
    (completed_at : option string) (now : Instant) : option string :=
  let final_completed_at := completed_at in
  let final_completed_at :=
    if is_terminal status && negb (truthy final_completed_at)
    then Some (_utc_now_iso now) else final_completed_at in
  let final_completed_at :=
    if is_nonterminal status then None else final_completed_at in
  final_completed_at.

(** Lines 349-355: the progress written when none is passed. *)
Definition final_progress_percent (status : string) (progress_percent : option Q)
    (existing : Job) : Q :=
  match progress_percent with
  | Some p => p
  | None =>
      if String.eqb status "completed" then 100%Q
      else if String.eqb status "queued" || String.eqb status "failed"
      then j_progress_percent existing
      else j_progress_percent existing
  end.

Definition update_status_for_user `{PyRuntime} (user_id job_id status : string)
    (progress_percent : option Q) (error_message input_file : option string)
    (parameters : option Params) (output_dir results_csv completed_at : option string)
    (now : Instant) : DB Job :=
  _validate_status status;;
  existing ← get_job_for_user user_id job_id;
  match existing with
  | None => raise (KeyError ("Job '" +:+ job_id +:+ "' not found for user '"
                             +:+ user_id +:+ "'."))
  | Some existing =>
      let final_completed_at := final_completed_at status completed_at now in
      let progress_percent :=
        final_progress_percent status progress_percent existing in
      let new_input_file := COALESCE input_file (j_input_file existing) in
      let new_output_dir := COALESCE output_dir (j_output_dir existing) in
      let new_results_csv := COALESCE results_csv (j_results_csv existing) in
      let new_parameters := default (j_parameters existing) parameters in
      let new_error := COALESCE error_message (j_error_message existing) in
      sql_update_job job_id user_id (λ j,
        mkJob (j_job_id j) (j_user_id j) status progress_percent new_error
              new_input_file new_results_csv new_parameters (j_created_at j)
              final_completed_at new_output_dir);;
      job ← get_job_for_user user_id job_id;
      match job with
      | None => raise (RuntimeError "Job update failed.")
      | Some job => mret job
      end
  end.

Definition update_progress_for_user (user_id job_id : string)
    (progress_percent : Q) : DB Job :=
  existing ← get_job_for_user user_id job_id;
  match existing with
  | None => raise (KeyError ("Job '" +:+ job_id +:+ "' not found for user '"
                             +:+ user_id +:+ "'."))
  | Some _ =>
      sql_update_job job_id user_id (λ j,
        mkJob (j_job_id j) (j_user_id j) (j_status j) progress_percent
              (j_error_message j) (j_input_file j) (j_results_csv j) (j_parameters j)
              (j_created_at j) (j_completed_at j) (j_output_dir j));;
      job ← get_job_for_user user_id job_id;
      match job with
      | None => raise (RuntimeError "Progress update failed.")
      | Some job => mret job
      end
  end.

(** [ORDER BY created_at DESC]: rows with equal keys come in an order SQL
    leaves open. *)
Definition created_desc (a b : Job) : Prop :=
  String.leb (j_created_at b) (j_created_at a) = true.

#[export] Instance created_desc_dec a b : Decision (created_desc a b).
Proof. unfold created_desc. apply _. Defined.

(** [LIMIT ?]: SQLite reads a negative limit as no limit. *)
Definition sql_limit {A} (limit : Z) (rows : list A) : list A :=
  if limit <? 0 then rows else take (Z.to_nat limit) rows.

Definition list_jobs_for_user (user_id : string) (status : option string)
    (limit : Z) : DB (list Job) :=
  match status with Some st => _validate_status st | None => mret tt end;;
  db ← get_state;
  let rows := filter (λ j, j_user_id j = user_id) (map_to_list (jobs db)).*2 in
  let rows :=
    if truthy status
    then filter (λ j, Some (j_status j) = status) rows
    else rows in
  mret (sql_limit limit (merge_sort created_desc rows)).

(** [Path(original_filename).suffix or ".csv"], under the manager's
    [uploads_dir]. *)
Definition get_upload_path `{PyRuntime} (uploads_dir : string)
    (user_id job_id original_filename : string) : string :=
  let ext := path_suffix original_filename in
  let ext := if String.eqb ext "" then ".csv" else ext in
  uploads_dir +:+ "/" +:+ user_id +:+ "/" +:+ job_id +:+ "/input" +:+ ext.

(** The file system is not part of the store; [written] is what
    [mkdir] / [write_bytes] did: [None] when they returned, [Some e] when
    they raised [e]. *)
Definition save_upload `{PyRuntime} (uploads_dir : string)
    (user_id job_id original_filename : string) (written : option Exn)
    (now : Instant) : DB string :=
  let path := get_upload_path uploads_dir user_id job_id original_filename in
  match written with
  | Some e => raise e
  | None =>
      update_status_for_user user_id job_id "queued"
        None None (Some path) None None None None now;;
      mret path
  end.

(** ** Histories of Job Store calls *)

Inductive JobOp :=
| Create_job (user_id : string) (input_file : option string)
    (parameters : option Params) (output_dir results_csv job_id : option string)
    (uuid : string)
| Update_status_for_user (user_id job_id status : string)
    (progress_percent : option Q) (error_message input_file : option string)
    (parameters : option Params) (output_dir results_csv completed_at : option string)
| Update_progress_for_user (user_id job_id : string) (progress_percent : Q)
| Save_upload (uploads_dir user_id job_id original_filename : string)
    (written : option Exn).

(** One call at clock reading [now]; what remains is the store it leaves,
    whether it returned or raised. *)
Definition run_op `{PyRuntime} (op : JobOp) (now : Instant) (db : Store) : Store :=
  match op with
  | Create_job u i p o r j uuid => (create_job u i p o r j uuid now db).2
  | Update_status_for_user u j st pr e i p o r c =>
      (update_status_for_user u j st pr e i p o r c now db).2
  | Update_progress_for_user u j pr => (update_progress_for_user u j pr db).2
  | Save_upload d u j f w => (save_upload d u j f w now db).2
  end.

Fixpoint run_ops `{PyRuntime} (ops : list (JobOp * Instant)) (db : Store) : Store :=
  match ops with
  | [] => db
  | (op, now) :: ops => run_ops ops (run_op op now db)
  end.

(** ** The job endpoints of [api.py] *)

(** What a handler raises: an [HTTPException], or an exception of the core
    that it does not catch. *)
Inductive ApiExn :=
| HTTPException (status_code : Z) (detail : string)
| Unhandled (e : Exn).

Inductive BgTask :=
| Run_analysis (user_id job_id : string).

(** A request sees the shared store and its own [BackgroundTasks]. *)
Record Server := mkServer {
  store : Store;
  background_tasks : list BgTask
}.

Abbreviation API := (M Server ApiExn).

Definition call_store {A} (m : DB A) : API A :=
  λ srv, match m (store srv) with
         | (Return a, db) => (Return a, mkServer db (background_tasks srv))
         | (Raise e, db) => (Raise (Unhandled e), mkServer db (background_tasks srv))
         end.

Definition add_task (t : BgTask) : API unit :=
  modify (λ srv, mkServer (store srv) (background_tasks srv ++ [t])).

Record ProcessResponse := mkProcessResponse {
  pr_job_id : string;
  pr_status : string;
  pr_progress_percent : Q;
  pr_user_id : string;
  pr_message : string
}.

Definition process_job `{PyRuntime} (job_id user_id : string) (now : Instant)
    : API ProcessResponse :=
  job ← call_store (get_job_for_user user_id job_id);
  match job with
  | None => raise (HTTPException 404 ("Job '" +:+ job_id +:+ "' not found"))
  | Some job =>
      if negb (String.eqb (j_status job) "queued")
      then raise (HTTPException 400
             ("Job '" +:+ job_id +:+ "' cannot be processed (current status: "
              +:+ j_status job +:+ ")"))
      else
        call_store (update_status_for_user user_id job_id "processing"
                      (Some 1%Q) None None None None None None now);;
        add_task (Run_analysis user_id job_id);;
        mret (mkProcessResponse job_id "processing" 1 user_id "Processing started")
  end.

(** ** The background execution *)

(** [try: body except Exception as error: handler(error)]. *)
Definition try_except {S E A} (body : M S E A) (handler : E → M S E A) : M S E A :=
  λ s, match body s with
       | (Return a, s') => (Return a, s')
       | (Raise e, s') => handler e s'
       end.

Definition lift_outcome {S E A} (o : Outcome E A) : M S E A := λ s, (o, s).

Record ProcessingParameters := mkProcessingParameters {
  session_id : string;
  dataset_name : option JValue;
  catchment_threshold_area : JValue
}.

(** The collaborators of one execution, by what they answer: the file
    system, the model validation of [ProcessingParameters], the Input
    Loader, the Analysis Function (the progress values it reports, in
    order, and how it ends) and the CSV writer, with the measured run
    time. *)
Record Collaborators := mkCollaborators {
  DataFrame : Type;
  path_exists : string → bool;
  mkdir : string → Outcome Exn unit;
  load : string → Outcome Exn DataFrame;
  validate_parameters : ProcessingParameters → Outcome Exn ProcessingParameters;
  run_analysis :
    DataFrame → ProcessingParameters → list (Q * string) * Outcome Exn Params;
  build_contributions_csv : DataFrame → string → Outcome Exn (Z * string);
  elapsed : Q
}.

(** The closure handed to the engine; the list of messages it also appends
    to is local to the run and never read. *)
Definition progress_callback (user_id job_id : string) (progress : Q)
    (message : string) : DB unit :=
  let clamped := py_max 10 (py_min 95 progress) in
  update_progress_for_user user_id job_id clamped;;
  mret tt.

Fixpoint report_all (callback : Q → string → DB unit) (reports : list (Q * string))
    : DB unit :=
  match reports with
  | [] => mret tt
  | (p, msg) :: rest => callback p msg;; report_all callback rest
  end.

(** [d.get(key)] on a decoded JSON dict: a missing key and a JSON [null]
    both read as [None]. *)
Definition dict_get (d : Params) (key : string) : option JValue :=
  match d !! key with
  | Some JNull | None => None
  | Some v => Some v
  end.

(** The [try] block of [_run_analysis]. *)
Definition run_analysis_body `{PyRuntime} (env : Collaborators) (data_dir : string)
    (user_id job_id : string) (now : Instant) : DB unit :=
  job ← get_job_for_user user_id job_id;
  match job with
  | None => mret tt
  | Some job =>
      let input_file := j_input_file job in
      if negb (truthy input_file)
      then raise (ValueError "Input file is missing for this job")
      else
        let input_path := default "" input_file in
        if negb (path_exists env input_path)
        then raise (FileNotFoundError ("Input file not found: " +:+ input_path))
        else
          let output_dir :=
            data_dir +:+ "/outputs/" +:+ user_id +:+ "/" +:+ job_id in
          lift_outcome (mkdir env output_dir);;
          dataframe ← lift_outcome (load env input_path);
          update_progress_for_user user_id job_id 10;;
          let job_parameters := j_parameters job in
          processing_parameters ← lift_outcome (validate_parameters env
            (mkProcessingParameters user_id
               (dict_get job_parameters "dataset_name")
               (default (JFloat 1)
                  (dict_get job_parameters "catchment_threshold_area"))));
          let '(reports, ending) :=
            run_analysis env dataframe processing_parameters in
          report_all (progress_callback user_id job_id) reports;;
          model_results ← lift_outcome ending;
          let csv_path := output_dir +:+ "/contributions.csv" in
          '(n_rows, model_type) ← lift_outcome
            (build_contributions_csv env dataframe csv_path);
          let current_params := j_parameters job in
          let updated_params :=
            <["models_run" := default (JList []) (model_results !! "models_run")]>
            (<["processing_time_seconds" := JFloat (elapsed env)]>
            (<["model_type" := JStr model_type]>
            (<["sample_count" := JInt n_rows]> current_params))) in
          update_status_for_user user_id job_id "completed"
            (Some 100%Q) None None (Some updated_params)
            (Some output_dir) (Some csv_path) None now;;
          mret tt
  end.

(** The [except Exception as error] block. *)
Definition run_analysis_handler `{PyRuntime} (user_id job_id : string)
    (now : Instant) (error : Exn) : DB unit :=
  existing ← get_job_for_user user_id job_id;
  let parameters :=
    match existing with
    | Some existing => j_parameters existing
    | None => ∅
    end in
  update_status_for_user user_id job_id "failed"
    (Some 100%Q) (Some (exn_str error)) None (Some parameters) None None None now;;
  mret tt.

Definition _run_analysis `{PyRuntime} (env : Collaborators) (data_dir : string)
    (user_id job_id : string) (now : Instant) : DB unit :=
  try_except (run_analysis_body env data_dir user_id job_id now)
             (run_analysis_handler user_id job_id now).

(** ** [AuthService] *)

(** The fields of [config.settings] the token code reads. *)
Record Settings := mkSettings {
  jwt_secret : string;
  jwt_algorithm : string;
  jwt_issuer : string;
  jwt_audience : string;
  access_token_ttl_minutes : Z;
  refresh_token_ttl_days : Z
}.

(** A claim set.  Decoded claims are read with [.get], so the fields the
    code tests may be absent. *)
Record Claims := mkClaims {
  c_sub : option string;
  c_email : option string;
  c_role : string;
  c_token_type : option string;
  c_jti : option string;
  c_iat : Z;
  c_exp : Z;
  c_iss : string;
  c_aud : string
}.

Definition usec_per_second : Z := 1000000.

(** [int(t.timestamp())]: whole seconds, truncated. *)
Definition timestamp_int (t : Instant) : Z := Z.quot t usec_per_second.

(** The [jwt] package: [jwt.encode] and [jwt.decode] under the configured
    secret, algorithm, audience and issuer; an encoded token is an opaque
    [str], here [Token].  [jwt_decode] raises on a bad
    signature, expiry, audience or issuer.  The one law used: a token
    encoded under the same settings decodes to its claims while the clock is
    between its [iat] and its [exp]. *)
Class Jwt := {
  Token : Type;
  jwt_encode : Settings → Claims → Token;
  jwt_decode : Settings → Instant → Token → Outcome Exn Claims;
  jwt_decode_encode : ∀ settings now c,
    c_iss c = jwt_issuer settings →
    c_aud c = jwt_audience settings →
    c_iat c * usec_per_second ≤ now < c_exp c * usec_per_second →
    jwt_decode settings now (jwt_encode settings c) = Return c
}.

Record TokenPair `{Jwt} := mkTokenPair {
  tp_access_token : Token;
  tp_refresh_token : Token;
  tp_token_type : string;
  tp_expires_in : Z
}.
Arguments mkTokenPair {_} _ _ _ _.

Definition _build_claims (settings : Settings) (user : User)
    (token_type jti : string) (expires_at : Instant) (now : Instant) : Claims :=
  mkClaims (Some (u_user_id user)) (u_email user) (u_role user)
           (Some token_type) (Some jti)
           (timestamp_int now) (timestamp_int expires_at)
           (jwt_issuer settings) (jwt_audience settings).

Definition _encode `{Jwt} (settings : Settings) (claims : Claims) : Token :=
  jwt_encode settings claims.

Definition _decode `{Jwt} (settings : Settings) (now : Instant) (token : Token)
    : DB Claims :=
  lift_outcome (jwt_decode settings now token).

Definition timedelta_minutes (n : Z) : Z := n * 60 * usec_per_second.
Definition timedelta_days (n : Z) : Z := n * 86400 * usec_per_second.

(** [access_jti] and [refresh_jti] are the two [uuid.uuid4()] draws. *)
Definition issue_token_pair `{PyRuntime} `{Jwt} (settings : Settings) (user : User)
    (access_jti refresh_jti : string) (now : Instant) : DB TokenPair :=
  let access_exp := now + timedelta_minutes (access_token_ttl_minutes settings) in
  let refresh_exp := now + timedelta_days (refresh_token_ttl_days settings) in
  let access_claims :=
    _build_claims settings user "access" access_jti access_exp now in
  let refresh_claims :=
    _build_claims settings user "refresh" refresh_jti refresh_exp now in
  let refresh_token := _encode settings refresh_claims in
  create_refresh_session refresh_jti (u_user_id user) (isoformat refresh_exp) now;;
  mret (mkTokenPair (_encode settings access_claims) refresh_token "bearer"
                    (access_token_ttl_minutes settings * 60)).

Definition refresh_tokens `{PyRuntime} `{Jwt} (settings : Settings)
    (refresh_token : Token) (access_jti refresh_jti : string) (now : Instant)
    : DB TokenPair :=
  claims ← _decode settings now refresh_token;
  if negb (bool_decide (c_token_type claims = Some "refresh"))
  then raise (ValueError "Invalid token type")
  else
    let jti := c_jti claims in
    if negb (truthy jti)
    then raise (ValueError "Refresh token missing jti")
    else
      let jti := default "" jti in
      session ← get_refresh_session jti;
      match session with
      | None => raise (ValueError "Refresh session not found")
      | Some session =>
          if truthy (s_revoked_at session)
          then raise (ValueError "Refresh token revoked")
          else
            let expires_at := s_expires_at session in
            (if truthy (Some expires_at)
             then match fromisoformat expires_at with
                  | None => raise (ValueError "Invalid isoformat string")
                  | Some t =>
                      if t <=? now
                      then raise (ValueError "Refresh token expired")
                      else mret tt
                  end
             else mret tt);;
            user ← get_user_by_id (s_user_id session);
            match user with
            | None => raise (ValueError "User is not active")
            | Some user =>
                if u_is_active user =? 0
                then raise (ValueError "User is not active")
                else
                  new_tokens ← issue_token_pair settings user
                                 access_jti refresh_jti now;
                  new_claims ← _decode settings now (tp_refresh_token new_tokens);
                  revoke_refresh_session jti (c_jti new_claims) now;;
                  mret new_tokens
            end
      end.

Definition revoke_refresh_token `{PyRuntime} `{Jwt} (settings : Settings)
    (refresh_token : Token) (now : Instant) : DB unit :=
  claims ← _decode settings now refresh_token;
  if negb (bool_decide (c_token_type claims = Some "refresh"))
  then raise (ValueError "Invalid token type")
  else
    let jti := c_jti claims in
    if negb (truthy jti)
    then raise (ValueError "Refresh token missing jti")
    else revoke_refresh_session (default "" jti) None now.

(** ** Users and credentials *)

(** [str.strip], taken from the runtime. *)
Class PyStr := {
  py_strip : string → string
}.

(** [passlib]'s [CryptContext]: [pwd_hash] takes the password and the salt
    it draws, [pwd_verify] may raise on a hash it does not recognise.  A
    hash is never empty and verifies against the password it was made
    from. *)
Class PasswordContext := {
  pwd_hash : string → string → string;
  pwd_verify : string → string → Outcome Exn bool;
  pwd_hash_nonempty : ∀ password salt, pwd_hash password salt ≠ "";
  pwd_verify_hash : ∀ password salt,
    pwd_verify password (pwd_hash password salt) = Return true
}.

(** SQLite's built-in [lower()]: it folds the 26 ASCII capitals and nothing
    else. *)
Definition ascii_lower (c : ascii) : ascii :=
  let n := nat_of_ascii c in
  if ((65 <=? n) && (n <=? 90))%nat then ascii_of_nat (n + 32) else c.

Fixpoint sql_lower (s : string) : string :=
  match s with
  | EmptyString => EmptyString
  | String c rest => String (ascii_lower c) (sql_lower rest)
  end.

(** The seven columns the user queries of [create_user] select: the row
    without [password_hash]. *)
Definition public_columns (u : User) : User :=
  mkUser (u_user_id u) (u_email u) None (u_full_name u) (u_role u)
         (u_is_active u) (u_created_at u) (u_last_seen_at u).

(** [SELECT ... FROM users WHERE lower(email) = lower(?)], first row;
    which one, when several match, SQL leaves open. *)
Definition get_user_by_email (email : string) : DB (option User) :=
  db ← get_state;
  mret (head (filter (λ u, sql_lower <$> u_email u = Some (sql_lower email))
                     (map_to_list (users db)).*2)).

(** [INSERT INTO users]: the primary key and the unique index on [email]
    both reject a duplicate.  [uuid] is the [uuid.uuid4()] draw. *)
Definition create_user `{PyRuntime} (email password_hash : string)
    (full_name : option string) (role : string) (uuid : string) (now : Instant)
    : DB User :=
  let user_id := uuid in
  let now := _utc_now_iso now in
  db ← get_state;
  if bool_decide (is_Some (users db !! user_id))
  then raise (IntegrityError "UNIQUE constraint failed: users.user_id")
  else if bool_decide (map_Exists (λ _ u, u_email u = Some email) (users db))
  then raise (IntegrityError "UNIQUE constraint failed: users.email")
  else
    modify (with_users
      <[user_id := mkUser user_id (Some email) (Some password_hash) full_name
                     role 1 now now]>);;
    db ← get_state;
    mret (match users db !! user_id with
          | Some row => public_columns row
          | None => mkUser "" None None None "user" 1 "" ""
          end).

(** [UPDATE users SET last_seen_at = ? WHERE user_id = ?]. *)
Definition update_user_last_seen `{PyRuntime} (user_id : string) (now : Instant)
    : DB unit :=
  modify (with_users (alter (λ u,
    mkUser (u_user_id u) (u_email u) (u_password_hash u) (u_full_name u)
           (u_role u) (u_is_active u) (u_created_at u) (_utc_now_iso now))
    user_id)).

(** [salt] is what [pwd_context.hash] draws. *)
Definition register_user `{PyRuntime} `{PasswordContext}
    (email password : string) (full_name : option string) (role : string)
    (salt uuid : string) (now : Instant) : DB User :=
  existing ← get_user_by_email email;
  match existing with
  | Some _ => raise (ValueError "An account with this email already exists")
  | None =>
      let password_hash := pwd_hash password salt in
      user ← create_user email password_hash full_name role uuid now;
      mret user
  end.

Definition authenticate_user `{PyRuntime} `{PasswordContext}
    (email password : string) (now : Instant) : DB User :=
  user ← get_user_by_email email;
  match user with
  | None => raise (ValueError "Invalid email or password")
  | Some user =>
      if u_is_active user =? 0
      then raise (ValueError "Account is disabled")
      else
        let password_hash := u_password_hash user in
        if negb (truthy password_hash)
        then raise (ValueError "Invalid email or password")
        else
          verified ← lift_outcome (pwd_verify password (default "" password_hash));
          if negb verified
          then raise (ValueError "Invalid email or password")
          else
            update_user_last_seen (u_user_id user) now;;
            refreshed ← get_user_by_id (u_user_id user);
            mret (default user refreshed)
  end.

(** What [verify_access_token] returns. *)
Record Identity := mkIdentity {
  id_user_id : string;
  id_email : option string;
  id_role : string
}.

Definition verify_access_token `{Jwt} `{PyStr} (settings : Settings)
    (token : Token) (now : Instant) : DB Identity :=
  claims ← _decode settings now token;
  if negb (bool_decide (c_token_type claims = Some "access"))
  then raise (ValueError "Invalid token type")
  else
    let user_id := py_strip (if truthy (c_sub claims) then default "" (c_sub claims)
                             else "") in
    if String.eqb user_id ""
    then raise (ValueError "Token missing subject")
    else
      user ← get_user_by_id user_id;
      match user with
      | None => raise (ValueError "User is not active")
      | Some user =>
          if u_is_active user =? 0
          then raise (ValueError "User is not active")
          else mret (mkIdentity user_id (u_email user) (u_role user))
      end.

(** * Properties *)

(** ** Running the monad *)

Ltac run :=
  repeat (progress (
    unfold mbind, mret, M_bind, M_ret, bind, ret, raise, get_state, modify,
           lift_outcome, try_except in *;
    cbn beta iota zeta in *)).

Lemma valid_status_cases (status : string) :
  status ∈ VALID_STATUSES ↔
  status = "queued" ∨ status = "processing" ∨ status = "completed"
  ∨ status = "failed".
Proof.
  unfold VALID_STATUSES. rewrite !elem_of_cons, elem_of_nil. tauto.
Qed.

Lemma validate_status_valid (status : string) (db : Store) :
  status ∈ VALID_STATUSES → _validate_status status db = (Return tt, db).
Proof.
  intros Hv. unfold _validate_status. rewrite bool_decide_eq_true_2 by done. done.
Qed.

Lemma validate_status_invalid (status : string) (db : Store) :
  status ∉ VALID_STATUSES →
  ∃ msg, _validate_status status db = (Raise (ValueError msg), db).
Proof.
  intros Hv. unfold _validate_status. rewrite bool_decide_eq_false_2 by done.
  eexists. reflexivity.
Qed.

Lemma select_job_for_user_Some db user_id job_id j :
  select_job_for_user db user_id job_id = Some j ↔
  jobs db !! job_id = Some j ∧ j_user_id j = user_id.
Proof.
  unfold select_job_for_user. destruct (jobs db !! job_id) as [j'|]; [|naive_solver].
  destruct (String.eqb_spec (j_user_id j') user_id); naive_solver.
Qed.

Lemma select_job_for_user_None db user_id job_id :
  select_job_for_user db user_id job_id = None ↔
  ∀ j, jobs db !! job_id = Some j → j_user_id j ≠ user_id.
Proof.
  unfold select_job_for_user. destruct (jobs db !! job_id) as [j'|]; [|naive_solver].
  destruct (String.eqb_spec (j_user_id j') user_id); naive_solver.
Qed.

(** The row [update_status_for_user] writes over [existing]. *)
Definition status_row `{PyRuntime} (existing : Job) (status : string)
    (progress_percent : option Q) (error_message input_file : option string)
    (parameters : option Params) (output_dir results_csv completed_at : option string)
    (now : Instant) : Job :=
  mkJob (j_job_id existing) (j_user_id existing) status
        (final_progress_percent status progress_percent existing)
        (COALESCE error_message (j_error_message existing))
        (COALESCE input_file (j_input_file existing))
        (COALESCE results_csv (j_results_csv existing))
        (default (j_parameters existing) parameters)
        (j_created_at existing)
        (final_completed_at status completed_at now)
        (COALESCE output_dir (j_output_dir existing)).

Definition progress_row (existing : Job) (progress_percent : Q) : Job :=
  mkJob (j_job_id existing) (j_user_id existing) (j_status existing)
        progress_percent (j_error_message existing) (j_input_file existing)
        (j_results_csv existing) (j_parameters existing) (j_created_at existing)
        (j_completed_at existing) (j_output_dir existing).

Section JobManagerRuns.
Context `{PyRuntime}.

Lemma update_status_for_user_invalid user_id job_id status pr e i p o r c now db :
  status ∉ VALID_STATUSES →
  ∃ msg, update_status_for_user user_id job_id status pr e i p o r c now db
         = (Raise (ValueError msg), db).
Proof.
  intros Hv. destruct (validate_status_invalid status db Hv) as [msg Hmsg].
  exists msg. unfold update_status_for_user. run. by rewrite Hmsg.
Qed.

Lemma update_status_for_user_unknown user_id job_id status pr e i p o r c now db :
  status ∈ VALID_STATUSES →
  select_job_for_user db user_id job_id = None →
  update_status_for_user user_id job_id status pr e i p o r c now db
  = (Raise (KeyError ("Job '" +:+ job_id +:+ "' not found for user '"
                      +:+ user_id +:+ "'.")), db).
Proof.
  intros Hv Hsel. unfold update_status_for_user, get_job_for_user. run.
  rewrite validate_status_valid by done. by rewrite Hsel.
Qed.

Lemma update_status_for_user_known user_id job_id status pr e i p o r c now db ex :
  status ∈ VALID_STATUSES →
  select_job_for_user db user_id job_id = Some ex →
  update_status_for_user user_id job_id status pr e i p o r c now db
  = (Return (status_row ex status pr e i p o r c now),
     with_jobs <[job_id := status_row ex status pr e i p o r c now]> db).
Proof.
  intros Hv Hsel. unfold update_status_for_user, get_job_for_user, sql_update_job.
  run. rewrite validate_status_valid by done. rewrite Hsel.
  apply select_job_for_user_Some in Hsel as [Hjob Hown].
  rewrite Hjob, <- Hown, String.eqb_refl.
  unfold select_job_for_user, with_jobs; cbn.
  rewrite lookup_insert_eq. cbn. by rewrite String.eqb_refl.
Qed.

Lemma update_progress_for_user_unknown user_id job_id pr db :
  select_job_for_user db user_id job_id = None →
  update_progress_for_user user_id job_id pr db
  = (Raise (KeyError ("Job '" +:+ job_id +:+ "' not found for user '"
                      +:+ user_id +:+ "'.")), db).
Proof.
  intros Hsel. unfold update_progress_for_user, get_job_for_user. run.
  by rewrite Hsel.
Qed.

Lemma update_progress_for_user_known user_id job_id pr db ex :
  select_job_for_user db user_id job_id = Some ex →
  update_progress_for_user user_id job_id pr db
  = (Return (progress_row ex pr), with_jobs <[job_id := progress_row ex pr]> db).
Proof.
  intros Hsel. unfold update_progress_for_user, get_job_for_user, sql_update_job.
  run. rewrite Hsel.
  apply select_job_for_user_Some in Hsel as [Hjob Hown].
  rewrite Hjob, <- Hown, String.eqb_refl.
  unfold select_job_for_user, with_jobs; cbn.
  rewrite lookup_insert_eq. cbn. by rewrite String.eqb_refl.
Qed.

End JobManagerRuns.

(** ** The terminal rule for [completed_at] *)

Definition row_completed_iff_terminal (j : Job) : Prop :=
  j_completed_at j ≠ None ↔ j_status j = "completed" ∨ j_status j = "failed".

Definition completed_iff_terminal (db : Store) : Prop :=
  ∀ job_id j, jobs db !! job_id = Some j → row_completed_iff_terminal j.

Lemma completed_iff_terminal_insert db job_id row :
  completed_iff_terminal db → row_completed_iff_terminal row →
  completed_iff_terminal (with_jobs <[job_id := row]> db).
Proof.
  intros Hdb Hrow k j. unfold with_jobs; cbn.
  rewrite lookup_insert. case_decide; [naive_solver | apply Hdb].
Qed.

Section TerminalRule.
Context `{PyRuntime}.

Lemma final_completed_at_nonterminal status completed_at now :
  status = "queued" ∨ status = "processing" →
  final_completed_at status completed_at now = None.
Proof. by intros [-> | ->]. Qed.

Lemma final_completed_at_terminal status completed_at now :
  status = "completed" ∨ status = "failed" →
  final_completed_at status completed_at now
  = if truthy completed_at then completed_at else Some (isoformat now).
Proof.
  intros [-> | ->]; unfold final_completed_at; cbn; by destruct (truthy _).
Qed.

Lemma truthy_not_None o : truthy o = true → o ≠ None.
Proof. by destruct o. Qed.

Lemma status_row_completed_iff_terminal ex status pr e i p o r c now :
  status ∈ VALID_STATUSES →
  row_completed_iff_terminal (status_row ex status pr e i p o r c now).
Proof.
  intros Hv. unfold row_completed_iff_terminal; cbn.
  apply valid_status_cases in Hv as [-> | [-> | [-> | ->]]].
  - rewrite final_completed_at_nonterminal by auto. naive_solver.
  - rewrite final_completed_at_nonterminal by auto. naive_solver.
  - rewrite final_completed_at_terminal by auto.
    destruct (truthy c) eqn:Hc; [apply truthy_not_None in Hc|]; naive_solver.
  - rewrite final_completed_at_terminal by auto.
    destruct (truthy c) eqn:Hc; [apply truthy_not_None in Hc|]; naive_solver.
Qed.

Lemma update_status_for_user_store user_id job_id status pr e i p o r c now db :
  (update_status_for_user user_id job_id status pr e i p o r c now db).2 = db
  ∨ ∃ ex, status ∈ VALID_STATUSES
        ∧ select_job_for_user db user_id job_id = Some ex
        ∧ (update_status_for_user user_id job_id status pr e i p o r c now db).2
          = with_jobs <[job_id := status_row ex status pr e i p o r c now]> db.
Proof.
  destruct (decide (status ∈ VALID_STATUSES)) as [Hv|Hv].
  - destruct (select_job_for_user db user_id job_id) as [ex|] eqn:Hsel.
    + right. exists ex. by rewrite (update_status_for_user_known _ _ _ _ _ _ _ _ _ _ _ _ ex).
    + left. by rewrite update_status_for_user_unknown.
  - left. destruct (update_status_for_user_invalid user_id job_id status
                      pr e i p o r c now db Hv) as [msg ->]. done.
Qed.

Lemma create_job_run user_id i p o r job_id uuid now db :
  let new_id := if truthy job_id then default uuid job_id else uuid in
  let row := mkJob new_id user_id "queued" 0 None (str_if_truthy i)
               (str_if_truthy r) (default ∅ p) (isoformat now) None
               (str_if_truthy o) in
  create_job user_id i p o r job_id uuid now db
  = match jobs db !! new_id with
    | Some _ => (Raise (IntegrityError "UNIQUE constraint failed: jobs.job_id"), db)
    | None => (Return row, with_jobs <[new_id := row]> db)
    end.
Proof.
  intros new_id row. unfold create_job, get_job_for_user. run.
  fold new_id. destruct (jobs db !! new_id); [done|].
  unfold select_job_for_user, with_jobs; cbn.
  rewrite lookup_insert_eq; cbn. by rewrite String.eqb_refl.
Qed.

Lemma run_op_completed_iff_terminal op now db :
  completed_iff_terminal db → completed_iff_terminal (run_op op now db).
Proof.
  intros Hdb. destruct op as [u i p o r j uuid | u j st pr e i p o r c
                             | u j pr | d u j f w]; cbn [run_op].
  - rewrite create_job_run. destruct (jobs db !! _); [done|]; cbn.
    apply completed_iff_terminal_insert; [done|].
    unfold row_completed_iff_terminal; cbn. naive_solver.
  - destruct (update_status_for_user_store u j st pr e i p o r c now db)
      as [-> | (ex & Hv & _ & ->)]; [done|].
    apply completed_iff_terminal_insert; [done|].
    by apply status_row_completed_iff_terminal.
  - destruct (select_job_for_user db u j) as [ex|] eqn:Hsel.
    + rewrite (update_progress_for_user_known _ _ _ _ ex) by done; cbn.
      apply completed_iff_terminal_insert; [done|].
      apply select_job_for_user_Some in Hsel as [Hjob _].
      apply (Hdb _ _ Hjob).
    + by rewrite update_progress_for_user_unknown.
  - unfold save_upload. destruct w as [exn|]; [done|]. run.
    pose proof (update_status_for_user_store u j "queued" None None
      (Some (get_upload_path d u j f)) None None None None now db) as Hst.
    destruct (update_status_for_user u j "queued" _ _ _ _ _ _ _ now db)
      as [[exn|job] db'] eqn:Hrun; cbn in *;
      (destruct Hst as [-> | (ex & Hv & _ & ->)]; [done|];
       apply completed_iff_terminal_insert; [done|];
       by apply status_row_completed_iff_terminal).
Qed.

Lemma run_ops_completed_iff_terminal ops db :
  completed_iff_terminal db → completed_iff_terminal (run_ops ops db).
Proof.
  revert db. induction ops as [|[op now] ops IH]; intros db Hdb; cbn; [done|].
  apply IH. by apply run_op_completed_iff_terminal.
Qed.

End TerminalRule.

(** ** A concrete runtime

    One implementation of the two interfaces, for evaluating the code on
    concrete inputs: instants print as ["T"] followed by their decimal
    digits, and a token is its claim set next to the secret that signed it. *)

Definition demo_isoformat (t : Instant) : string :=
  String "T"%char (DecimalString.NilEmpty.string_of_int (Z.to_int t)).

Definition demo_fromisoformat (s : string) : option Instant :=
  match s with
  | String "T"%char digits => Z.of_int <$> DecimalString.NilEmpty.int_of_string digits
  | _ => None
  end.

Lemma demo_fromisoformat_isoformat t :
  demo_fromisoformat (demo_isoformat t) = Some t.
Proof.
  unfold demo_fromisoformat, demo_isoformat.
  by rewrite DecimalString.NilEmpty.isi; cbn; rewrite DecimalZ.of_to.
Qed.

#[export] Instance demo_runtime : PyRuntime := {|
  isoformat := demo_isoformat;
  fromisoformat := demo_fromisoformat;
  py_repr := λ s, "'" +:+ s +:+ "'";
  path_suffix := λ _, ".csv";
  isoformat_nonempty := λ t, ltac:(done);
  fromisoformat_isoformat := demo_fromisoformat_isoformat
|}.

Definition demo_decode (settings : Settings) (now : Instant)
    (token : string * Claims) : Outcome Exn Claims :=
  let '(key, c) := token in
  if bool_decide (key = jwt_secret settings ∧ c_iss c = jwt_issuer settings
                  ∧ c_aud c = jwt_audience settings
                  ∧ c_iat c * usec_per_second ≤ now < c_exp c * usec_per_second)
  then Return c
  else Raise (InvalidTokenError "Invalid token").

#[export] Program Instance demo_jwt : Jwt := {|
  Token := string * Claims;
  jwt_encode := λ settings c, (jwt_secret settings, c);
  jwt_decode := demo_decode
|}.
Next Obligation.
  intros settings now c Hiss Haud Htime. unfold demo_decode.
  by rewrite bool_decide_eq_true_2.
Qed.

Definition demo_settings : Settings :=
  mkSettings "dev-secret-change-me" "HS256" "oasis-backend" "oasis-desktop" 30 14.

(** ** C1: [completed_at] is set exactly in the terminal statuses *)

(** C1.  In every store reached from the empty database by any sequence of
    [create_job], [update_status_for_user], [update_progress_for_user] and
    [save_upload] calls, every job has a non-null [completed_at] if and only
    if its status is ["completed"] or ["failed"].  From such a job, a
    transition by its owner to ["queued"] or ["processing"] returns the
    stored row with [completed_at] null, and a transition to ["completed"]
    or ["failed"] that supplies no [completed_at] returns the stored row
    with [completed_at] equal to the time of the update. *)
Theorem completed_at_iff_terminal_status `{PyRuntime}
    (ops : list (JobOp * Instant)) (job_id : string) (j : Job) :
  let db := run_ops ops empty_store in
  jobs db !! job_id = Some j →
  (j_completed_at j ≠ None ↔ j_status j = "completed" ∨ j_status j = "failed")
  ∧ (∀ status pr e i p o r c now,
       status = "queued" ∨ status = "processing" →
       ∃ j', update_status_for_user (j_user_id j) job_id status pr e i p o r c now db
             = (Return j', with_jobs <[job_id := j']> db)
           ∧ j_status j' = status ∧ j_completed_at j' = None)
  ∧ (∀ status pr e i p o r c now,
       status = "completed" ∨ status = "failed" →
       truthy c = false →
       ∃ j', update_status_for_user (j_user_id j) job_id status pr e i p o r c now db
             = (Return j', with_jobs <[job_id := j']> db)
           ∧ j_status j' = status
           ∧ j_completed_at j' = Some (_utc_now_iso now)).
Proof.
  intros db Hjob.
  assert (select_job_for_user db (j_user_id j) job_id = Some j) as Hsel
    by by apply select_job_for_user_Some.
  split; [|split].
  - eapply (run_ops_completed_iff_terminal ops empty_store); [|exact Hjob].
    intros k j0. unfold empty_store; cbn. by rewrite lookup_empty.
  - intros status pr e i p o r c now Hst.
    eexists. split; [|split].
    + apply update_status_for_user_known; [|exact Hsel].
      apply valid_status_cases. tauto.
    + done.
    + cbn. by apply final_completed_at_nonterminal.
  - intros status pr e i p o r c now Hst Hc.
    eexists. split; [|split].
    + apply update_status_for_user_known; [|exact Hsel].
      apply valid_status_cases. tauto.
    + done.
    + cbn. rewrite final_completed_at_terminal by done. by rewrite Hc.
Qed.

Definition demo_history : list (JobOp * Instant) :=
  [ (Create_job "alice" None None None None (Some "job-1") "uuid-1", 1000);
    (Save_upload "/data/uploads" "alice" "job-1" "samples.csv" None, 2000);
    (Update_status_for_user "alice" "job-1" "processing" (Some 1%Q)
       None None None None None None, 3000);
    (Update_progress_for_user "alice" "job-1" 10, 4000);
    (Update_status_for_user "alice" "job-1" "failed" (Some 100%Q)
       (Some "boom") None None None None None, 5000) ].

Definition demo_failed_job : Job :=
  mkJob "job-1" "alice" "failed" 100 (Some "boom")
        (Some "/data/uploads/alice/job-1/input.csv") None ∅ "T1000"
        (Some "T5000") None.

Lemma completed_at_iff_terminal_status_witness :
  jobs (run_ops demo_history empty_store) !! "job-1" = Some demo_failed_job
  ∧ (j_completed_at demo_failed_job ≠ None
     ↔ j_status demo_failed_job = "completed"
       ∨ j_status demo_failed_job = "failed").
Proof.
  assert (jobs (run_ops demo_history empty_store) !! "job-1"
          = Some demo_failed_job) as Hjob by (vm_compute; reflexivity).
  split; [exact Hjob|].
  exact (proj1 (completed_at_iff_terminal_status demo_history "job-1"
                  demo_failed_job Hjob)).
Defined.

(** ** C10: the store-level transition has no ordering constraint *)

(** C10.  [update_status_for_user] looks at the current status of the job
    nowhere: for an existing job of [user_id] and a status of the enum it
    returns the rewritten row carrying the new status, whatever the old
    status was (so a ["completed"] or ["failed"] job goes back to
    ["queued"] or ["processing"]); it raises [KeyError] exactly when the
    status is valid and no job matches [(user_id, job_id)], [ValueError]
    exactly when the status is outside the enum, nothing else, and a raising
    call leaves the store as it was. *)
Theorem update_status_for_user_any_order `{PyRuntime}
    (db : Store) (user_id job_id status : string) (pr : option Q)
    (e i : option string) (p : option Params) (o r c : option string)
    (now : Instant) :
  let call := update_status_for_user user_id job_id status pr e i p o r c now db in
  (∀ ex, status ∈ VALID_STATUSES →
         select_job_for_user db user_id job_id = Some ex →
         ∃ j', call = (Return j', with_jobs <[job_id := j']> db)
               ∧ j_status j' = status)
  ∧ (∀ exn db', call = (Raise exn, db') →
       db' = db
       ∧ (((status ∉ VALID_STATUSES) ∧ (∃ msg, exn = ValueError msg))
          ∨ (status ∈ VALID_STATUSES
             ∧ select_job_for_user db user_id job_id = None
             ∧ (∃ msg, exn = KeyError msg)))).
Proof.
  intros call. split.
  - intros ex Hv Hsel. eexists. split; [by apply update_status_for_user_known|done].
  - intros exn db' Hcall. unfold call in Hcall.
    destruct (decide (status ∈ VALID_STATUSES)) as [Hv|Hv].
    + destruct (select_job_for_user db user_id job_id) as [ex|] eqn:Hsel.
      * by rewrite (update_status_for_user_known _ _ _ _ _ _ _ _ _ _ _ _ ex)
          in Hcall.
      * rewrite update_status_for_user_unknown in Hcall by done.
        inversion Hcall; subst. naive_solver.
    + destruct (update_status_for_user_invalid user_id job_id status
                  pr e i p o r c now db Hv) as [msg Hmsg].
      rewrite Hmsg in Hcall. inversion Hcall; subst. naive_solver.
Qed.

Lemma update_status_for_user_any_order_witness :
  let db := run_ops demo_history empty_store in
  "queued" ∈ VALID_STATUSES
  ∧ select_job_for_user db "alice" "job-1" = Some demo_failed_job
  ∧ ∃ j', update_status_for_user "alice" "job-1" "queued"
            None None None None None None None 6000 db
          = (Return j', with_jobs (<["job-1" := j']>) db)
        ∧ j_status j' = "queued".
Proof.
  intros db.
  assert ("queued" ∈ VALID_STATUSES) as Hv by (apply valid_status_cases; tauto).
  assert (select_job_for_user db "alice" "job-1" = Some demo_failed_job) as Hsel
    by (vm_compute; reflexivity).
  split; [exact Hv|]. split; [exact Hsel|].
  exact (proj1 (update_status_for_user_any_order db "alice" "job-1" "queued"
                  None None None None None None None 6000)
               demo_failed_job Hv Hsel).
Defined.

(** ** The [process] entry point *)

Section ProcessJob.
Context `{PyRuntime}.

Lemma process_job_unknown job_id user_id now srv :
  select_job_for_user (store srv) user_id job_id = None →
  process_job job_id user_id now srv
  = (Raise (HTTPException 404 ("Job '" +:+ job_id +:+ "' not found")), srv).
Proof.
  intros Hsel. unfold process_job, call_store, get_job_for_user. run.
  rewrite Hsel. by destruct srv.
Qed.

Lemma process_job_not_queued job_id user_id now srv job :
  select_job_for_user (store srv) user_id job_id = Some job →
  j_status job ≠ "queued" →
  process_job job_id user_id now srv
  = (Raise (HTTPException 400
       ("Job '" +:+ job_id +:+ "' cannot be processed (current status: "
        +:+ j_status job +:+ ")")), srv).
Proof.
  intros Hsel Hst. unfold process_job, call_store, get_job_for_user. run.
  rewrite Hsel. destruct (String.eqb_spec (j_status job) "queued"); [done|].
  by destruct srv.
Qed.

Lemma process_job_queued job_id user_id now srv job :
  select_job_for_user (store srv) user_id job_id = Some job →
  j_status job = "queued" →
  let row := status_row job "processing" (Some 1%Q) None None None None None
               None now in
  process_job job_id user_id now srv
  = (Return (mkProcessResponse job_id "processing" 1 user_id "Processing started"),
     mkServer (with_jobs <[job_id := row]> (store srv))
              (background_tasks srv ++ [Run_analysis user_id job_id])).
Proof.
  intros Hsel Hst row. unfold process_job, call_store, get_job_for_user, add_task.
  run. rewrite Hsel, Hst. cbn.
  rewrite (update_status_for_user_known _ _ _ _ _ _ _ _ _ _ _ _ job);
    [done| |done].
  apply valid_status_cases. tauto.
Qed.

End ProcessJob.

(** ** C5: only a queued job can be started *)

(** C5.  When the caller's job is in any status other than ["queued"] (for
    one, ["completed"]), [process_job] raises [HTTPException] 400 naming the
    current status, and the server is exactly as before: the same store, so
    the same job row, and no background task added. *)
Theorem process_job_requires_queued `{PyRuntime}
    (srv : Server) (user_id job_id : string) (job : Job) (now : Instant) :
  select_job_for_user (store srv) user_id job_id = Some job →
  j_status job ≠ "queued" →
  ∃ detail,
    process_job job_id user_id now srv = (Raise (HTTPException 400 detail), srv)
    ∧ select_job_for_user (store (process_job job_id user_id now srv).2)
        user_id job_id = Some job
    ∧ background_tasks (process_job job_id user_id now srv).2
      = background_tasks srv.
Proof.
  intros Hsel Hst. eexists.
  rewrite (process_job_not_queued _ _ _ _ job) by done. done.
Qed.

Definition demo_completed_job : Job :=
  mkJob "job-2" "alice" "completed" 100 None
        (Some "/data/uploads/alice/job-2/input.csv")
        (Some "/data/outputs/alice/job-2/contributions.csv") ∅ "T1000"
        (Some "T9000") (Some "/data/outputs/alice/job-2").

Definition demo_completed_server : Server :=
  mkServer (mkStore ∅ ∅ {[ "job-2" := demo_completed_job ]}) [].

Lemma process_job_requires_queued_witness :
  ∃ detail,
    process_job "job-2" "alice" 10000 demo_completed_server
    = (Raise (HTTPException 400 detail), demo_completed_server)
    ∧ select_job_for_user
        (store (process_job "job-2" "alice" 10000 demo_completed_server).2)
        "alice" "job-2" = Some demo_completed_job
    ∧ background_tasks (process_job "job-2" "alice" 10000 demo_completed_server).2
      = background_tasks demo_completed_server.
Proof.
  apply (process_job_requires_queued demo_completed_server "alice" "job-2"
           demo_completed_job 10000).
  - vm_compute; reflexivity.
  - cbn. discriminate.
Defined.

(** ** C6: starting a queued job *)

(** What [process_job] does to a queued job: the row is rewritten to
    ["processing"] at progress 1 before the handler returns, one
    [_run_analysis] task is queued behind the response, and every other
    column, [error_message] included, keeps its prior value. *)
Lemma process_job_marks_processing `{PyRuntime}
    (srv : Server) (user_id job_id : string) (job : Job) (now : Instant) :
  select_job_for_user (store srv) user_id job_id = Some job →
  j_status job = "queued" →
  ∃ resp srv' job',
    process_job job_id user_id now srv = (Return resp, srv')
    ∧ select_job_for_user (store srv') user_id job_id = Some job'
    ∧ j_status job' = "processing"
    ∧ j_progress_percent job' = 1%Q
    ∧ j_completed_at job' = None
    ∧ j_error_message job' = j_error_message job
    ∧ background_tasks srv'
      = (background_tasks srv ++ [Run_analysis user_id job_id])%list.
Proof.
  intros Hsel Hst.
  eexists _, _, (status_row job "processing" (Some 1%Q) None None None None None
                   None now).
  split; [by apply process_job_queued|]. cbn.
  split; [|done].
  unfold select_job_for_user, with_jobs; cbn. rewrite lookup_insert_eq; cbn.
  apply select_job_for_user_Some in Hsel as [_ ->]. by rewrite String.eqb_refl.
Qed.

(** A queued job that still carries the message of an earlier failure: it
    failed validation and its file was then uploaded again. *)
Definition requeued_history : list (JobOp * Instant) :=
  [ (Create_job "alice" None None None None (Some "job-3") "uuid-3", 1000);
    (Update_status_for_user "alice" "job-3" "failed" None
       (Some "Missing required columns") None None None None None, 2000);
    (Save_upload "/data/uploads" "alice" "job-3" "samples.csv" None, 3000) ].

Definition requeued_server : Server :=
  mkServer (run_ops requeued_history empty_store) [].

(** C6, on the code.  [process_job] passes [error_message=None], which
    [update_status_for_user] reads as "keep the stored value": the job is
    marked ["processing"] at progress 1 and the task is scheduled, but the
    message of the earlier failure is still on the row. *)
Theorem process_job_keeps_prior_error :
  ((λ job, (j_status job, j_error_message job))
     <$> select_job_for_user (store requeued_server) "alice" "job-3")
  = Some ("queued", Some "Missing required columns")
  ∧ ∃ resp srv' job',
      process_job "job-3" "alice" 4000 requeued_server = (Return resp, srv')
      ∧ select_job_for_user (store srv') "alice" "job-3" = Some job'
      ∧ j_status job' = "processing"
      ∧ j_progress_percent job' = 1%Q
      ∧ j_error_message job' = Some "Missing required columns"
      ∧ background_tasks srv' = [Run_analysis "alice" "job-3"].
Proof.
  split; [vm_compute; reflexivity|].
  destruct (select_job_for_user (store requeued_server) "alice" "job-3")
    as [job|] eqn:Hsel; [|by vm_compute in Hsel].
  assert (j_status job = "queued" ∧
          j_error_message job = Some "Missing required columns") as [Hst Herr].
  { vm_compute in Hsel. by inversion Hsel. }
  destruct (process_job_marks_processing requeued_server "alice" "job-3" job 4000
              Hsel Hst) as (resp & srv' & job' & Hrun & Hsel' & ? & ? & ? & He & Hbg).
  exists resp, srv', job'. rewrite He, Herr in *. done.
Qed.

(** ** C8: the progress callback clamps *)

(** The clamp in the words of the specification. *)
Definition clamp_10_95 (p : Q) : Q := Qmax 10 (Qmin 95 p).

Lemma py_max_Qmax a b : py_max a b = Qmax a b.
Proof.
  unfold py_max, Qmax, GenericMinMax.gmax.
  destruct (Qlt_le_dec a b) as [Hlt|Hle].
  - apply (proj1 (Qlt_alt a b)) in Hlt. by rewrite Hlt.
  - destruct (a ?= b)%Q eqn:Hc; try done.
    all: apply (proj2 (Qlt_alt a b)) in Hc; by apply Qlt_not_le in Hc.
Qed.

Lemma py_min_Qmin a b : py_min a b = Qmin a b.
Proof.
  unfold py_min, Qmin, GenericMinMax.gmin.
  destruct (Qlt_le_dec b a) as [Hlt|Hle].
  - apply (proj1 (Qgt_alt a b)) in Hlt. by rewrite Hlt.
  - destruct (a ?= b)%Q eqn:Hc; try done.
    all: apply (proj2 (Qgt_alt a b)) in Hc; by apply Qlt_not_le in Hc.
Qed.

Lemma clamp_bounds (p : Q) :
  (10 <= py_max 10 (py_min 95 p) <= 95)%Q.
Proof.
  unfold py_max, py_min.
  destruct (Qlt_le_dec p 95) as [H95|H95];
    destruct (Qlt_le_dec 10 _) as [H10|H10]; split;
    try apply Qle_refl; try (by apply Qlt_le_weak); done.
Qed.

(** C8.  For a job of the caller, [progress_callback] returns normally for
    every reported value [p], in or out of range, and the value it writes
    to [progress_percent] is [max(10, min(95, p))]: 10 below the range, 95
    above it, [p] itself inside, always within [10, 95]; no other column of
    the row changes. *)
Theorem progress_callback_clamps
    (db : Store) (user_id job_id : string) (ex : Job) (p : Q) (message : string) :
  select_job_for_user db user_id job_id = Some ex →
  ∃ clamped,
    progress_callback user_id job_id p message db
    = (Return tt, with_jobs <[job_id := progress_row ex clamped]> db)
    ∧ clamped = clamp_10_95 p
    ∧ (10 <= clamped <= 95)%Q
    ∧ ((p < 10)%Q → clamped = 10%Q)
    ∧ ((95 < p)%Q → clamped = 95%Q)
    ∧ ((10 <= p <= 95)%Q → (clamped == p)%Q).
Proof.
  intros Hsel. exists (py_max 10 (py_min 95 p)).
  split; [|split; [|split; [|split; [|split]]]].
  - unfold progress_callback. run.
    by rewrite (update_progress_for_user_known _ _ _ _ ex).
  - unfold clamp_10_95. by rewrite py_min_Qmin, py_max_Qmax.
  - apply clamp_bounds.
  - intros Hp. unfold py_max, py_min.
    destruct (Qlt_le_dec p 95) as [H95|H95].
    + destruct (Qlt_le_dec 10 p) as [H10|H10]; [|done].
      exfalso. apply (Qlt_irrefl p). by apply Qlt_trans with 10%Q.
    + exfalso. apply (Qlt_irrefl p).
      apply Qlt_le_trans with 10%Q; [done|]. by apply Qle_trans with 95%Q.
  - intros Hp. unfold py_max, py_min.
    destruct (Qlt_le_dec p 95) as [H95|H95].
    + exfalso. apply (Qlt_irrefl p). by apply Qlt_trans with 95%Q.
    + by destruct (Qlt_le_dec 10 95).
  - intros [Hlo Hhi]. unfold py_max, py_min.
    destruct (Qlt_le_dec p 95) as [H95|H95].
    + destruct (Qlt_le_dec 10 p) as [H10|H10]; [reflexivity|].
      by apply Qle_antisym.
    + destruct (Qlt_le_dec 10 95) as [_|Hbad]; [|done].
      by apply Qle_antisym.
Qed.

Definition demo_processing_job : Job :=
  mkJob "job-4" "alice" "processing" 10 None
        (Some "/data/uploads/alice/job-4/input.csv") None ∅ "T1000" None None.

Definition demo_processing_store : Store :=
  mkStore ∅ ∅ {[ "job-4" := demo_processing_job ]}.

Lemma progress_callback_clamps_witness :
  ∃ clamped,
    progress_callback "alice" "job-4" 250 "Complete!" demo_processing_store
    = (Return tt,
       with_jobs <["job-4" := progress_row demo_processing_job clamped]>
         demo_processing_store)
    ∧ clamped = 95%Q.
Proof.
  destruct (progress_callback_clamps demo_processing_store "alice" "job-4"
              demo_processing_job 250 "Complete!")
    as (clamped & Hrun & _ & _ & _ & Hhi & _).
  - vm_compute; reflexivity.
  - exists clamped. split; [exact Hrun|]. apply Hhi. reflexivity.
Defined.

(** ** C9: the range of [progress_percent] *)

Definition progress_in_range (p : Q) : Prop := (0 <= p <= 100)%Q.

Definition store_progress_in_range (db : Store) : Prop :=
  ∀ job_id j, jobs db !! job_id = Some j → progress_in_range (j_progress_percent j).

(** The progress values a call passes in. *)
Definition op_progress_in_range (op : JobOp) : Prop :=
  match op with
  | Update_status_for_user _ _ _ (Some p) _ _ _ _ _ _ => progress_in_range p
  | Update_progress_for_user _ _ p => progress_in_range p
  | _ => True
  end.

Lemma store_progress_in_range_insert db job_id row :
  store_progress_in_range db → progress_in_range (j_progress_percent row) →
  store_progress_in_range (with_jobs <[job_id := row]> db).
Proof.
  intros Hdb Hrow k j. unfold with_jobs; cbn.
  rewrite lookup_insert. case_decide; [|apply Hdb].
  intros [= <-]. exact Hrow.
Qed.

Lemma final_progress_percent_in_range status pr ex :
  from_option progress_in_range True pr →
  progress_in_range (j_progress_percent ex) →
  progress_in_range (final_progress_percent status pr ex).
Proof.
  intros Hpr Hex. unfold final_progress_percent.
  destruct pr as [p|]; [exact Hpr|].
  destruct (String.eqb status "completed"); [by split|].
  by destruct (_ || _).
Qed.

Lemma run_op_progress_in_range `{PyRuntime} op now db :
  op_progress_in_range op →
  store_progress_in_range db → store_progress_in_range (run_op op now db).
Proof.
  intros Hop Hdb. destruct op as [u i p o r j uuid | u j st pr e i p o r c
                                 | u j pr | d u j f w]; cbn [run_op].
  - rewrite create_job_run. destruct (jobs db !! _); [done|]; cbn.
    apply store_progress_in_range_insert; [done|]. by split.
  - destruct (update_status_for_user_store u j st pr e i p o r c now db)
      as [-> | (ex & Hv & Hsel & ->)]; [done|].
    apply store_progress_in_range_insert; [done|]. cbn.
    apply select_job_for_user_Some in Hsel as [Hjob _].
    apply final_progress_percent_in_range; [by destruct pr|by apply (Hdb j)].
  - destruct (select_job_for_user db u j) as [ex|] eqn:Hsel.
    + rewrite (update_progress_for_user_known _ _ _ _ ex) by done; cbn.
      by apply store_progress_in_range_insert.
    + by rewrite update_progress_for_user_unknown.
  - unfold save_upload. destruct w as [exn|]; [done|]. run.
    pose proof (update_status_for_user_store u j "queued" None None
      (Some (get_upload_path d u j f)) None None None None now db) as Hst.
    destruct (update_status_for_user u j "queued" _ _ _ _ _ _ _ now db)
      as [[exn|job] db'] eqn:Hrun; cbn in *;
      (destruct Hst as [-> | (ex & Hv & Hsel & ->)]; [done|];
       apply store_progress_in_range_insert; [done|];
       apply select_job_for_user_Some in Hsel as [Hjob _];
       apply (Hdb j _ Hjob)).
Qed.

(** C9, as the code has it.  The store keeps every job's [progress_percent]
    within [0, 100] as long as the progress values its callers pass to
    [update_status_for_user] and [update_progress_for_user] are within
    [0, 100]; it checks no range itself: [update_progress_for_user] records
    for the caller's job exactly the value it is given. *)
Theorem progress_in_range_if_supplied_in_range `{PyRuntime}
    (ops : list (JobOp * Instant)) :
  Forall (λ step, op_progress_in_range step.1) ops →
  store_progress_in_range (run_ops ops empty_store)
  ∧ ∀ user_id job_id ex (p : Q),
      select_job_for_user (run_ops ops empty_store) user_id job_id = Some ex →
      ∃ j' db',
        update_progress_for_user user_id job_id p (run_ops ops empty_store)
        = (Return j', db')
        ∧ jobs db' !! job_id = Some j'
        ∧ j_progress_percent j' = p.
Proof.
  intros Hops. split.
  - assert (store_progress_in_range empty_store) as Hinit.
    { intros k j. unfold empty_store; cbn. by rewrite lookup_empty. }
    revert Hinit. generalize empty_store.
    induction Hops as [|[op now] ops Hop _ IH]; intros db Hdb; cbn; [done|].
    apply IH. by apply run_op_progress_in_range.
  - intros user_id job_id ex p Hsel. do 2 eexists.
    split; [by apply update_progress_for_user_known|]. cbn.
    by rewrite lookup_insert_eq.
Qed.

Lemma progress_in_range_if_supplied_in_range_witness :
  Forall (λ step : JobOp * Instant, op_progress_in_range step.1) demo_history
  ∧ store_progress_in_range (run_ops demo_history empty_store).
Proof.
  assert (Forall (λ step : JobOp * Instant, op_progress_in_range step.1)
            demo_history) as Hops.
  { unfold demo_history, progress_in_range.
    repeat (constructor; cbn; try done). }
  split; [exact Hops|].
  exact (proj1 (progress_in_range_if_supplied_in_range demo_history Hops)).
Defined.

Definition overshoot_history : list (JobOp * Instant) :=
  [ (Create_job "alice" None None None None (Some "job-5") "uuid-5", 1000);
    (Update_progress_for_user "alice" "job-5" 150, 2000) ].

(** C9 as stated fails: after [update_progress_for_user] is given 150, the
    job's [progress_percent] is 150. *)
Lemma progress_above_100_counterexample :
  ¬ (∀ (ops : list (JobOp * Instant)) job_id j,
       jobs (run_ops ops empty_store) !! job_id = Some j →
       (0 <= j_progress_percent j <= 100)%Q).
Proof.
  intros Hall.
  destruct (jobs (run_ops overshoot_history empty_store) !! "job-5")
    as [j|] eqn:Hjob; [|by vm_compute in Hjob].
  pose proof (Hall overshoot_history "job-5" j Hjob) as [_ Hhi].
  vm_compute in Hjob. inversion Hjob; subst. by vm_compute in Hhi.
Qed.

(** ** C2: tenant scoping *)

(** Every row [list_jobs_for_user] returns is a row of the table owned by
    the caller. *)
Lemma list_jobs_for_user_rows user_id status limit db :
  match list_jobs_for_user user_id status limit db with
  | (Return rows, db') =>
      db' = db
      ∧ ∀ j, j ∈ rows → j_user_id j = user_id ∧ ∃ k, jobs db !! k = Some j
  | (Raise exn, db') => db' = db ∧ ∃ msg, exn = ValueError msg
  end.
Proof.
  unfold list_jobs_for_user. run.
  assert (∀ rows (j : Job),
            j ∈ sql_limit limit (merge_sort created_desc
                  (if truthy status
                   then filter (λ j, Some (j_status j) = status) rows
                   else rows)) → j ∈ rows) as Hsub.
  { intros rows j. unfold sql_limit. intros Hin.
    assert (j ∈ merge_sort created_desc
              (if truthy status
               then filter (λ j, Some (j_status j) = status) rows
               else rows)) as Hin'.
    { destruct (limit <? 0); [done|]. by apply (subseteq_take _ _ _ Hin). }
    rewrite merge_sort_Permutation in Hin'.
    destruct (truthy status); [|done].
    by apply list_elem_of_filter in Hin' as [_ ?]. }
  assert (∀ j, j ∈ filter (λ j, j_user_id j = user_id) (map_to_list (jobs db)).*2 →
               j_user_id j = user_id ∧ ∃ k, jobs db !! k = Some j) as Hown.
  { intros j [Hu Hin]%list_elem_of_filter. split; [done|].
    apply list_elem_of_fmap in Hin as ([k j'] & -> & Hin).
    exists k. by apply elem_of_map_to_list. }
  destruct status as [st|]; cbn.
  - unfold _validate_status.
    destruct (bool_decide (st ∈ VALID_STATUSES)); cbn; [|by eauto].
    split; [done|]. intros j Hin. apply Hown. by apply Hsub in Hin.
  - split; [done|]. intros j Hin. apply Hown. by apply (Hsub _ j).
Qed.

(** The reads of [JobManager] on the [jobs] table, and the rows each one
    hands to a caller holding [user_id] and [job_id]. *)
Inductive JobQuery :=
| Get_job
| Get_job_for_user
| List_jobs_for_user (status : option string) (limit : Z).

Definition rows_read (q : JobQuery) (user_id job_id : string) (db : Store)
    : list Job :=
  match q with
  | Get_job =>
      match get_job job_id db with
      | (Return (Some j), _) => [j]
      | _ => []
      end
  | Get_job_for_user =>
      match get_job_for_user user_id job_id db with
      | (Return (Some j), _) => [j]
      | _ => []
      end
  | List_jobs_for_user status limit =>
      match list_jobs_for_user user_id status limit db with
      | (Return rows, _) => rows
      | _ => []
      end
  end.

(** The store without the row of [job_id]. *)
Definition without_job (job_id : string) (db : Store) : Store :=
  with_jobs (delete job_id) db.

Lemma select_job_for_user_without db user_id job_id :
  select_job_for_user (without_job job_id db) user_id job_id = None.
Proof.
  unfold select_job_for_user, without_job, with_jobs; cbn.
  by rewrite lookup_delete_eq.
Qed.

(** C2, as the code has it.  For a job owned by someone other than
    [user_id]: [get_job_for_user] returns [None]; [update_status_for_user]
    raises, with [KeyError] for a status of the enum, and with the very
    outcome it has on the store without the job; [update_progress_for_user]
    raises [KeyError] and [save_upload] raises; each leaves the store
    unchanged; and no row read by [get_job_for_user] or [list_jobs_for_user]
    is the job.  [get_job], which takes no [user_id], returns it. *)
Theorem non_owner_sees_no_job `{PyRuntime}
    (db : Store) (user_id job_id : string) (j : Job) :
  jobs db !! job_id = Some j →
  j_user_id j ≠ user_id →
  get_job_for_user user_id job_id db = (Return None, db)
  ∧ (∀ status pr e i p o r c now,
       update_status_for_user user_id job_id status pr e i p o r c now db
       = ((update_status_for_user user_id job_id status pr e i p o r c now
             (without_job job_id db)).1, db)
       ∧ ∃ exn,
           update_status_for_user user_id job_id status pr e i p o r c now db
           = (Raise exn, db)
           ∧ (status ∈ VALID_STATUSES → ∃ msg, exn = KeyError msg))
  ∧ (∀ p, ∃ msg, update_progress_for_user user_id job_id p db
                 = (Raise (KeyError msg), db))
  ∧ (∀ dir name written now,
       ∃ exn, save_upload dir user_id job_id name written now db = (Raise exn, db))
  ∧ (∀ q, q ≠ Get_job → j ∉ rows_read q user_id job_id db)
  ∧ get_job job_id db = (Return (Some j), db).
Proof.
  intros Hjob Hown.
  assert (select_job_for_user db user_id job_id = None) as Hsel.
  { apply select_job_for_user_None. intros j' Hj'. congruence. }
  split; [|split; [|split; [|split; [|split]]]].
  - unfold get_job_for_user. run. by rewrite Hsel.
  - intros status pr e i p o r c now.
    destruct (decide (status ∈ VALID_STATUSES)) as [Hv|Hv].
    + rewrite !update_status_for_user_unknown
        by auto using select_job_for_user_without.
      split; [done|]. eexists. split; [done|]. eauto.
    + destruct (update_status_for_user_invalid user_id job_id status
                  pr e i p o r c now db Hv) as [msg Hmsg].
      destruct (update_status_for_user_invalid user_id job_id status
                  pr e i p o r c now (without_job job_id db) Hv) as [msg' Hmsg'].
      rewrite Hmsg, Hmsg'. cbn.
      assert (msg' = msg) as ->.
      { unfold update_status_for_user, _validate_status in Hmsg, Hmsg'.
        run. rewrite bool_decide_eq_false_2 in Hmsg, Hmsg' by done.
        congruence. }
      split; [done|]. eexists. split; [done|]. done.
  - intros p. eexists. by apply update_progress_for_user_unknown.
  - intros dir name written now. unfold save_upload.
    destruct written as [exn|]; [by eexists|]. run.
    rewrite update_status_for_user_unknown; [by eexists| |done].
    apply valid_status_cases. tauto.
  - intros q Hq. destruct q as [| |status limit]; [done| |]; cbn.
    + unfold get_job_for_user. run. rewrite Hsel. apply not_elem_of_nil.
    + pose proof (list_jobs_for_user_rows user_id status limit db) as Hrows.
      destruct (list_jobs_for_user user_id status limit db) as [[exn|rows] db'].
      * apply not_elem_of_nil.
      * destruct Hrows as [_ Hrows]. intros Hin.
        by destruct (Hrows j Hin) as [? _].
  - unfold get_job. run. by rewrite Hjob.
Qed.

Definition demo_owned_store : Store :=
  run_ops [ (Create_job "alice" None None None None (Some "job-6") "uuid-6", 1000) ]
          empty_store.

Definition demo_owned_job : Job :=
  mkJob "job-6" "alice" "queued" 0 None None None ∅ "T1000" None None.

Lemma non_owner_sees_no_job_witness :
  jobs demo_owned_store !! "job-6" = Some demo_owned_job
  ∧ j_user_id demo_owned_job ≠ "bob"
  ∧ get_job_for_user "bob" "job-6" demo_owned_store = (Return None, demo_owned_store).
Proof.
  assert (jobs demo_owned_store !! "job-6" = Some demo_owned_job) as Hjob
    by (vm_compute; reflexivity).
  assert (j_user_id demo_owned_job ≠ "bob") as Hown by (cbn; discriminate).
  split; [exact Hjob|]. split; [exact Hown|].
  exact (proj1 (non_owner_sees_no_job demo_owned_store "bob" "job-6"
                  demo_owned_job Hjob Hown)).
Defined.

(** C2 as stated fails: holding only the job's id, a caller who is not its
    owner is handed the row by [get_job]. *)
Lemma get_job_ignores_owner_counterexample :
  ¬ (∀ (q : JobQuery) (db : Store) (user_id job_id : string) (j : Job),
       jobs db !! job_id = Some j → j_user_id j ≠ user_id →
       j ∉ rows_read q user_id job_id db).
Proof.
  intros Hall.
  apply (Hall Get_job demo_owned_store "bob" "job-6" demo_owned_job).
  - vm_compute; reflexivity.
  - cbn. discriminate.
  - vm_compute. apply list_elem_of_here.
Qed.

(** ** C4: a failed execution *)

(** What an execution may do to the store before it fails: nothing, or
    rewrite the progress of its job. *)
Definition only_progress_changed (user_id job_id : string) (db db' : Store) : Prop :=
  db' = db
  ∨ ∃ ex p, select_job_for_user db user_id job_id = Some ex
            ∧ db' = with_jobs <[job_id := progress_row ex p]> db.

Lemma only_progress_changed_trans user_id job_id db1 db2 db3 :
  only_progress_changed user_id job_id db1 db2 →
  only_progress_changed user_id job_id db2 db3 →
  only_progress_changed user_id job_id db1 db3.
Proof.
  intros [-> | (ex & p & Hsel & ->)]; [done|].
  intros [-> | (ex' & p' & Hsel' & ->)]; [right; eauto|].
  right. exists ex, p'. split; [done|].
  unfold select_job_for_user, with_jobs in *; cbn in *.
  rewrite lookup_insert_eq in Hsel'; cbn in Hsel'.
  destruct (String.eqb (j_user_id ex) user_id); [|done].
  injection Hsel' as <-. by rewrite insert_insert_eq.
Qed.

Lemma update_progress_for_user_store user_id job_id p db :
  only_progress_changed user_id job_id db
    (update_progress_for_user user_id job_id p db).2.
Proof.
  destruct (select_job_for_user db user_id job_id) as [ex|] eqn:Hsel.
  - rewrite (update_progress_for_user_known _ _ _ _ ex) by done. right. eauto.
  - rewrite update_progress_for_user_unknown by done. by left.
Qed.

Lemma report_all_store user_id job_id reports db :
  only_progress_changed user_id job_id db
    (report_all (progress_callback user_id job_id) reports db).2.
Proof.
  revert db. induction reports as [|[p msg] reports IH]; intros db; cbn;
    [by left|].
  unfold progress_callback. run.
  pose proof (update_progress_for_user_store user_id job_id
                (py_max 10 (py_min 95 p)) db) as Hstep.
  destruct (update_progress_for_user _ _ _ db) as [[exn|j] db1]; cbn in *;
    [done|].
  eapply only_progress_changed_trans; [exact Hstep|apply IH].
Qed.

Lemma update_status_for_user_raises `{PyRuntime}
    user_id job_id status pr e i p o r c now db exn db' :
  update_status_for_user user_id job_id status pr e i p o r c now db
  = (Raise exn, db') → db' = db.
Proof.
  intros Hcall.
  destruct (update_status_for_user_store user_id job_id status pr e i p o r c
              now db) as [Hst | (ex & Hv & Hsel & _)].
  - by rewrite Hcall in Hst.
  - by rewrite (update_status_for_user_known _ _ _ _ _ _ _ _ _ _ _ _ ex)
      in Hcall.
Qed.

(** A [try] block that raises has at most rewritten the progress of its
    job. *)
Lemma run_analysis_body_raises `{PyRuntime} env data_dir user_id job_id now db
    exn db' :
  run_analysis_body env data_dir user_id job_id now db = (Raise exn, db') →
  only_progress_changed user_id job_id db db'.
Proof.
  unfold run_analysis_body, get_job_for_user. run.
  destruct (select_job_for_user db user_id job_id) as [job|]; [|done].
  destruct (truthy (j_input_file job)); cbn; [|by intros [= _ <-]; left].
  destruct (path_exists env _); cbn; [|by intros [= _ <-]; left].
  destruct (mkdir env _) as [e0|[]]; [by intros [= _ <-]; left|].
  destruct (load env _) as [e0|dataframe]; [by intros [= _ <-]; left|].
  pose proof (update_progress_for_user_store user_id job_id 10 db) as H10.
  destruct (update_progress_for_user user_id job_id 10 db) as [[e0|j1] db1];
    cbn in H10; [by intros [= _ <-]|].
  destruct (validate_parameters env _) as [e0|pp]; [by intros [= _ <-]|].
  destruct (run_analysis env dataframe pp) as [reports ending].
  pose proof (report_all_store user_id job_id reports db1) as Hrep.
  destruct (report_all _ reports db1) as [[e0|[]] db2]; cbn in Hrep.
  { intros [= _ <-]. by eapply only_progress_changed_trans. }
  assert (only_progress_changed user_id job_id db db2) as H2
    by by eapply only_progress_changed_trans.
  destruct ending as [e0|model_results]; [by intros [= _ <-]|].
  destruct (build_contributions_csv env dataframe _) as [e0|[n_rows model_type]];
    [by intros [= _ <-]|].
  destruct (update_status_for_user user_id job_id "completed" _ _ _ _ _ _ _ now db2)
    as [[e0|j3] db3] eqn:Hfinal; [|done].
  intros [= _ <-]. apply update_status_for_user_raises in Hfinal as ->. done.
Qed.

Lemma run_analysis_handler_known `{PyRuntime} user_id job_id now error db ex :
  select_job_for_user db user_id job_id = Some ex →
  run_analysis_handler user_id job_id now error db
  = (Return tt,
     with_jobs <[job_id := status_row ex "failed" (Some 100%Q)
                             (Some (exn_str error)) None (Some (j_parameters ex))
                             None None None now]> db).
Proof.
  intros Hsel. unfold run_analysis_handler, get_job_for_user. run.
  rewrite Hsel.
  rewrite (update_status_for_user_known _ _ _ _ _ _ _ _ _ _ _ _ ex);
    [done| |done].
  apply valid_status_cases. tauto.
Qed.

Lemma only_progress_changed_select user_id job_id db db' job :
  only_progress_changed user_id job_id db db' →
  select_job_for_user db user_id job_id = Some job →
  ∃ p, select_job_for_user db' user_id job_id = Some (progress_row job p).
Proof.
  intros [-> | (ex & p & Hsel & ->)] Hjob.
  - exists (j_progress_percent job). by destruct job.
  - exists p. rewrite Hjob in Hsel. injection Hsel as <-.
    apply select_job_for_user_Some in Hjob as [_ Hown].
    unfold select_job_for_user, with_jobs; cbn.
    rewrite lookup_insert_eq; cbn. by rewrite Hown, String.eqb_refl.
Qed.

(** The columns a failure leaves alone, in the words of the specification:
    all but status, error and progress. *)
Definition same_but_status_error_progress (j j' : Job) : Prop :=
  j_job_id j' = j_job_id j ∧ j_user_id j' = j_user_id j
  ∧ j_input_file j' = j_input_file j ∧ j_results_csv j' = j_results_csv j
  ∧ j_parameters j' = j_parameters j ∧ j_created_at j' = j_created_at j
  ∧ j_completed_at j' = j_completed_at j ∧ j_output_dir j' = j_output_dir j.

(** C4, as the code has it.  When the [try] block of [_run_analysis] raises
    [error] for a job of the caller, [_run_analysis] itself returns
    normally, and the job ends with status ["failed"], progress 100,
    [error_message] equal to [str(error)] and the parameter map it had when
    the execution started; besides status, error and progress the one
    column rewritten is [completed_at], set to the time of the update, and
    [job_id], owner, [input_file], [results_csv], [created_at] and
    [output_dir] are as before. *)
Theorem failed_execution_ends_failed `{PyRuntime}
    (env : Collaborators) (data_dir : string) (db : Store)
    (user_id job_id : string) (now : Instant) (job : Job) (error : Exn)
    (db1 : Store) :
  select_job_for_user db user_id job_id = Some job →
  run_analysis_body env data_dir user_id job_id now db = (Raise error, db1) →
  ∃ job',
    _run_analysis env data_dir user_id job_id now db
    = (Return tt, with_jobs <[job_id := job']> db1)
    ∧ j_status job' = "failed"
    ∧ j_progress_percent job' = 100%Q
    ∧ j_error_message job' = Some (exn_str error)
    ∧ j_parameters job' = j_parameters job
    ∧ j_completed_at job' = Some (_utc_now_iso now)
    ∧ j_job_id job' = j_job_id job ∧ j_user_id job' = j_user_id job
    ∧ j_input_file job' = j_input_file job
    ∧ j_results_csv job' = j_results_csv job
    ∧ j_created_at job' = j_created_at job
    ∧ j_output_dir job' = j_output_dir job.
Proof.
  intros Hsel Hbody.
  pose proof (run_analysis_body_raises _ _ _ _ _ _ _ _ Hbody) as Hchg.
  destruct (only_progress_changed_select _ _ _ _ _ Hchg Hsel) as [p Hsel1].
  eexists. split.
  - unfold _run_analysis, try_except. rewrite Hbody.
    by apply run_analysis_handler_known.
  - cbn. by repeat split.
Qed.

(** One execution: the job of ["alice"] is uploaded and started, the engine
    reports 30 and then raises ["boom"]. *)
Definition boom_env : Collaborators := {|
  DataFrame := unit;
  path_exists := λ _, true;
  mkdir := λ _, Return tt;
  load := λ _, Return tt;
  validate_parameters := Return;
  run_analysis := λ _ _, ([(30%Q, "Detecting tracers...")], Raise (Exception "boom"));
  build_contributions_csv := λ _ _, Return (3, "nitrate");
  elapsed := 0%Q
|}.

Definition boom_params : Params := {[ "dataset_name" := JStr "river" ]}.

Definition boom_store : Store :=
  run_ops
    [ (Create_job "alice" None (Some boom_params) None None (Some "job-7") "uuid-7",
       1000);
      (Save_upload "/data/uploads" "alice" "job-7" "samples.csv" None, 2000);
      (Update_status_for_user "alice" "job-7" "processing" (Some 1%Q)
         None None None None None None, 3000) ]
    empty_store.

Definition boom_job : Job :=
  mkJob "job-7" "alice" "processing" 1 None
        (Some "/data/uploads/alice/job-7/input.csv") None boom_params "T1000"
        None None.

Lemma failed_execution_ends_failed_witness :
  let body := run_analysis_body boom_env "/data" "alice" "job-7" 4000 boom_store in
  select_job_for_user boom_store "alice" "job-7" = Some boom_job
  ∧ body = (Raise (Exception "boom"), body.2)
  ∧ ∃ job',
      _run_analysis boom_env "/data" "alice" "job-7" 4000 boom_store
      = (Return tt, with_jobs <["job-7" := job']> body.2)
      ∧ j_status job' = "failed"
      ∧ j_progress_percent job' = 100%Q
      ∧ j_error_message job' = Some "boom"
      ∧ j_parameters job' = boom_params.
Proof.
  intros body.
  assert (select_job_for_user boom_store "alice" "job-7" = Some boom_job) as Hsel
    by (vm_compute; reflexivity).
  assert (body = (Raise (Exception "boom"), body.2)) as Hbody
    by (vm_compute; reflexivity).
  split; [exact Hsel|]. split; [exact Hbody|].
  destruct (failed_execution_ends_failed boom_env "/data" boom_store "alice"
              "job-7" 4000 boom_job (Exception "boom") body.2 Hsel Hbody)
    as (job' & Hrun & Hst & Hpr & Hmsg & Hpar & _).
  exists job'. repeat split; assumption.
Defined.

(** C4 as stated fails: the failure also rewrites [completed_at], null
    while the job was processing and set once it has failed. *)
Lemma failed_execution_sets_completed_at_counterexample :
  ¬ (∀ (env : Collaborators) (data_dir : string) (db : Store)
       (user_id job_id : string) (now : Instant) (job : Job) (error : Exn)
       (db1 : Store),
       select_job_for_user db user_id job_id = Some job →
       run_analysis_body env data_dir user_id job_id now db = (Raise error, db1) →
       ∃ job',
         select_job_for_user
           (_run_analysis env data_dir user_id job_id now db).2 user_id job_id
         = Some job'
         ∧ j_status job' = "failed"
         ∧ j_progress_percent job' = 100%Q
         ∧ j_error_message job' = Some (exn_str error)
         ∧ same_but_status_error_progress job job').
Proof.
  intros Hall.
  destruct (run_analysis_body boom_env "/data" "alice" "job-7" 4000 boom_store)
    as [[error|[]] db1] eqn:Hbody; [|by vm_compute in Hbody].
  destruct (Hall boom_env "/data" boom_store "alice" "job-7" 4000 boom_job error
              db1 ltac:(vm_compute; reflexivity) Hbody)
    as (job' & Hsel' & _ & _ & _ & Hsame).
  destruct Hsame as (_ & _ & _ & _ & _ & _ & Hcompleted & _).
  vm_compute in Hsel'. injection Hsel' as <-. by cbn in Hcompleted.
Qed.

(** ** Refresh sessions *)

(** The row [revoke_refresh_session] writes over [s]. *)
Definition revoked_row `{PyRuntime} (s : Session) (replaced_by_jti : option string)
    (now : Instant) : Session :=
  mkSession (s_jti s) (s_user_id s) (s_expires_at s) (s_created_at s)
            (Some (_utc_now_iso now))
            (COALESCE replaced_by_jti (s_replaced_by_jti s)).

Section SessionRuns.
Context `{PyRuntime} `{Jwt}.

Lemma isoformat_truthy t : truthy (Some (isoformat t)) = true.
Proof.
  cbn. destruct (String.eqb_spec (isoformat t) ""); [|done].
  by destruct (isoformat_nonempty t).
Qed.

Lemma isoformat_inj t1 t2 : isoformat t1 = isoformat t2 → t1 = t2.
Proof.
  intros Heq. apply (f_equal fromisoformat) in Heq.
  rewrite !fromisoformat_isoformat in Heq. by injection Heq.
Qed.

Lemma revoke_refresh_session_known jti replaced now db s :
  refresh_sessions db !! jti = Some s →
  revoke_refresh_session jti replaced now db
  = (Return tt, with_sessions <[jti := revoked_row s replaced now]> db).
Proof.
  intros Hs. unfold revoke_refresh_session. run. f_equal.
  unfold with_sessions. f_equal.
  apply map_eq. intros k. rewrite lookup_alter, lookup_insert.
  case_decide; [subst; by rewrite Hs|done].
Qed.

Lemma revoke_refresh_session_unknown jti replaced now db :
  refresh_sessions db !! jti = None →
  revoke_refresh_session jti replaced now db = (Return tt, db).
Proof.
  intros Hs. unfold revoke_refresh_session. run. f_equal.
  destruct db as [us ss js]; unfold with_sessions; cbn in *. f_equal.
  apply map_eq. intros k. rewrite lookup_alter.
  case_decide; [subst; by rewrite Hs|done].
Qed.

(** The session [issue_token_pair] persists. *)
Definition issued_session (settings : Settings) (user : User)
    (refresh_jti : string) (now : Instant) : Session :=
  mkSession refresh_jti (u_user_id user)
    (isoformat (now + timedelta_days (refresh_token_ttl_days settings)))
    (isoformat now) None None.

Definition issued_pair (settings : Settings) (user : User)
    (access_jti refresh_jti : string) (now : Instant) : TokenPair :=
  mkTokenPair
    (_encode settings (_build_claims settings user "access" access_jti
       (now + timedelta_minutes (access_token_ttl_minutes settings)) now))
    (_encode settings (_build_claims settings user "refresh" refresh_jti
       (now + timedelta_days (refresh_token_ttl_days settings)) now))
    "bearer" (access_token_ttl_minutes settings * 60).

Lemma issue_token_pair_fresh settings user access_jti refresh_jti now db :
  refresh_sessions db !! refresh_jti = None →
  issue_token_pair settings user access_jti refresh_jti now db
  = (Return (issued_pair settings user access_jti refresh_jti now),
     with_sessions
       <[refresh_jti := issued_session settings user refresh_jti now]> db).
Proof.
  intros Hfresh. unfold issue_token_pair, create_refresh_session. run.
  by rewrite Hfresh.
Qed.

Lemma issue_token_pair_taken settings user access_jti refresh_jti now db :
  is_Some (refresh_sessions db !! refresh_jti) →
  ∃ exn, issue_token_pair settings user access_jti refresh_jti now db
         = (Raise exn, db).
Proof.
  intros [s Hs]. unfold issue_token_pair, create_refresh_session. run.
  rewrite Hs. by eexists.
Qed.

(** A freshly issued refresh token decodes, at the instant of issue, to
    claims carrying its [jti]. *)
Lemma decode_issued_refresh settings user access_jti refresh_jti now :
  0 ≤ now → 0 < refresh_token_ttl_days settings →
  jwt_decode settings now
    (tp_refresh_token (issued_pair settings user access_jti refresh_jti now))
  = Return (_build_claims settings user "refresh" refresh_jti
              (now + timedelta_days (refresh_token_ttl_days settings)) now).
Proof.
  intros Hnow Httl. cbn. unfold _encode. apply jwt_decode_encode; [done..|].
  cbn. unfold timestamp_int, timedelta_days, usec_per_second.
  pose proof (Z.quot_rem' now 1000000) as Hq.
  pose proof (Z.rem_bound_pos now 1000000 Hnow ltac:(lia)) as Hr.
  pose proof (Z.quot_rem'
    (now + refresh_token_ttl_days settings * 86400 * 1000000) 1000000) as Hq'.
  pose proof (Z.rem_bound_pos
    (now + refresh_token_ttl_days settings * 86400 * 1000000) 1000000
    ltac:(lia) ltac:(lia)) as Hr'.
  lia.
Qed.

End SessionRuns.

(** Histories of [AuthService] calls that write sessions. *)
Inductive AuthOp `{Jwt} :=
| Issue_token_pair (user : User) (access_jti refresh_jti : string)
| Refresh_tokens (refresh_token : Token) (access_jti refresh_jti : string)
| Revoke_refresh_token (refresh_token : Token).

Definition run_auth_op `{PyRuntime} `{Jwt} (settings : Settings) (op : AuthOp)
    (now : Instant) (db : Store) : Store :=
  match op with
  | Issue_token_pair user a r => (issue_token_pair settings user a r now db).2
  | Refresh_tokens token a r => (refresh_tokens settings token a r now db).2
  | Revoke_refresh_token token => (revoke_refresh_token settings token now db).2
  end.

Fixpoint run_auth_ops `{PyRuntime} `{Jwt} (settings : Settings)
    (ops : list (AuthOp * Instant)) (db : Store) : Store :=
  match ops with
  | [] => db
  | (op, now) :: ops => run_auth_ops settings ops (run_auth_op settings op now db)
  end.

(** The session of [jti] is on record as revoked. *)
Definition session_revoked (jti : string) (db : Store) : Prop :=
  ∃ s, refresh_sessions db !! jti = Some s ∧ truthy (s_revoked_at s) = true.

(** A computation that keeps a property of the store, however it ends. *)
Definition preserves {A} (P : Store → Prop) (m : DB A) : Prop :=
  ∀ db, P db → P (m db).2.

Lemma preserves_ret {A} P (a : A) : preserves P (mret a).
Proof. by intros db. Qed.

Lemma preserves_raise {A} P (e : Exn) : preserves P (raise e : DB A).
Proof. by intros db. Qed.

Lemma preserves_lift_outcome {A} P (o : Outcome Exn A) :
  preserves P (lift_outcome o).
Proof. by intros db. Qed.

Lemma preserves_bind {A B} P (m : DB A) (k : A → DB B) :
  preserves P m → (∀ a, preserves P (k a)) → preserves P (m ≫= k).
Proof.
  intros Hm Hk db HP. specialize (Hm db HP). run.
  destruct (m db) as [[e|a] db']; cbn in *; [done|]. by apply Hk.
Qed.

Lemma preserves_get_state P (k : Store → DB unit) :
  (∀ db, P db → P (k db db).2) → preserves P (get_state ≫= k).
Proof. intros Hk db HP. run. by apply Hk. Qed.

Section RevokedStays.
Context `{PyRuntime} `{Jwt}.

Lemma create_refresh_session_revoked jti new_jti user_id expires_at now :
  preserves (session_revoked jti)
    (create_refresh_session new_jti user_id expires_at now).
Proof.
  intros db (s & Hs & Hrev). unfold create_refresh_session. run.
  destruct (refresh_sessions db !! new_jti) eqn:Hnew; cbn; [by exists s|].
  exists s. split; [|done]. unfold with_sessions; cbn.
  rewrite lookup_insert_ne; [done|congruence].
Qed.

Lemma revoke_refresh_session_revoked jti other replaced now :
  preserves (session_revoked jti) (revoke_refresh_session other replaced now).
Proof.
  intros db (s & Hs & Hrev). unfold revoke_refresh_session. run.
  unfold session_revoked, with_sessions; cbn.
  rewrite lookup_alter. case_decide; [subst|by exists s].
  rewrite Hs. eexists. split; [done|]. apply isoformat_truthy.
Qed.

Lemma get_refresh_session_preserves P jti : preserves P (get_refresh_session jti).
Proof. by intros db. Qed.

Lemma get_user_by_id_preserves P user_id : preserves P (get_user_by_id user_id).
Proof. by intros db. Qed.

Lemma issue_token_pair_revoked jti settings user a r now :
  preserves (session_revoked jti) (issue_token_pair settings user a r now).
Proof.
  unfold issue_token_pair. apply preserves_bind.
  - apply create_refresh_session_revoked.
  - intros []. apply preserves_ret.
Qed.

Lemma refresh_tokens_revoked_stays jti settings token a r now :
  preserves (session_revoked jti) (refresh_tokens settings token a r now).
Proof.
  unfold refresh_tokens, _decode.
  apply preserves_bind; [apply preserves_lift_outcome|]. intros claims.
  destruct (negb _); [apply preserves_raise|].
  destruct (negb _); [apply preserves_raise|].
  apply preserves_bind; [apply get_refresh_session_preserves|].
  intros [session|]; [|apply preserves_raise].
  destruct (truthy (s_revoked_at session)); [apply preserves_raise|].
  apply preserves_bind.
  { destruct (truthy _); [|apply preserves_ret].
    destruct (fromisoformat _); [|apply preserves_raise].
    destruct (_ <=? _); [apply preserves_raise|apply preserves_ret]. }
  intros []. apply preserves_bind; [apply get_user_by_id_preserves|].
  intros [user|]; [|apply preserves_raise].
  destruct (_ =? _); [apply preserves_raise|].
  apply preserves_bind; [apply issue_token_pair_revoked|]. intros pair.
  apply preserves_bind; [apply preserves_lift_outcome|]. intros new_claims.
  apply preserves_bind; [apply revoke_refresh_session_revoked|].
  intros []. apply preserves_ret.
Qed.

Lemma revoke_refresh_token_revoked_stays jti settings token now :
  preserves (session_revoked jti) (revoke_refresh_token settings token now).
Proof.
  unfold revoke_refresh_token, _decode.
  apply preserves_bind; [apply preserves_lift_outcome|]. intros claims.
  destruct (negb _); [apply preserves_raise|].
  destruct (negb _); [apply preserves_raise|].
  apply revoke_refresh_session_revoked.
Qed.

Lemma run_auth_ops_revoked jti settings ops db :
  session_revoked jti db → session_revoked jti (run_auth_ops settings ops db).
Proof.
  revert db. induction ops as [|[op now] ops IH]; intros db Hdb; cbn; [done|].
  apply IH. destruct op as [user a r|token a r|token]; cbn.
  - by apply issue_token_pair_revoked.
  - by apply refresh_tokens_revoked_stays.
  - by apply revoke_refresh_token_revoked_stays.
Qed.

End RevokedStays.

(** ** C3: rotation is single-use *)

(** [token] is a refresh token naming the session [jti]. *)
Definition refresh_token_of `{Jwt} (settings : Settings) (now : Instant)
    (token : Token) (jti : string) : Prop :=
  ∃ claims, jwt_decode settings now token = Return claims
            ∧ c_token_type claims = Some "refresh"
            ∧ c_jti claims = Some jti ∧ jti ≠ "".

Section Rotation.
Context `{PyRuntime} `{Jwt}.

Lemma truthy_Some_nonempty s : s ≠ "" → truthy (Some s) = true.
Proof. intros Hs. cbn. by destruct (String.eqb_spec s ""). Qed.

Lemma refresh_tokens_revoked settings token jti a r now db :
  refresh_token_of settings now token jti →
  session_revoked jti db →
  refresh_tokens settings token a r now db
  = (Raise (ValueError "Refresh token revoked"), db).
Proof.
  intros (claims & Hdec & Htype & Hjti & Hne) (s & Hs & Hrev).
  unfold refresh_tokens, _decode, get_refresh_session. run.
  rewrite Hdec, Htype, Hjti. rewrite bool_decide_eq_true_2 by done.
  rewrite truthy_Some_nonempty by done.
  cbn [negb from_option id]. by rewrite Hs, Hrev.
Qed.

Lemma refresh_tokens_live settings token jti a r now db session user t :
  refresh_token_of settings now token jti →
  refresh_sessions db !! jti = Some session →
  truthy (s_revoked_at session) = false →
  fromisoformat (s_expires_at session) = Some t → now < t →
  users db !! s_user_id session = Some user → u_is_active user ≠ 0 →
  refresh_sessions db !! r = None →
  0 ≤ now → 0 < refresh_token_ttl_days settings →
  refresh_tokens settings token a r now db
  = (Return (issued_pair settings user a r now),
     with_sessions <[jti := revoked_row session (Some r) now]>
       (with_sessions <[r := issued_session settings user r now]> db)).
Proof.
  intros (claims & Hdec & Htype & Hjti & Hne) Hs Hrev Hexp Hlt Hu Hact Hfresh
         Hnow Httl.
  unfold refresh_tokens, _decode, get_refresh_session, get_user_by_id. run.
  rewrite Hdec, Htype, Hjti. rewrite bool_decide_eq_true_2 by done.
  rewrite truthy_Some_nonempty by done.
  cbn [negb from_option id]. rewrite Hs, Hrev, Hexp.
  replace (t <=? now) with false by (symmetry; apply Z.leb_gt; lia).
  destruct (truthy (Some (s_expires_at session))); cbn beta iota zeta.
  all: rewrite Hu; destruct (Z.eqb_spec (u_is_active user) 0); [done|].
  all: rewrite issue_token_pair_fresh by done.
  all: rewrite decode_issued_refresh by done; cbn beta iota zeta.
  all: erewrite revoke_refresh_session_known; [done|].
  all: unfold with_sessions; cbn; rewrite lookup_insert_ne; [done|congruence].
Qed.

End Rotation.

(** C3.  For a refresh token whose session is on record, not revoked and
    not expired, and whose user is active, [refresh_tokens] succeeds (the
    drawn [refresh_jti] being new, the clock past the epoch and the refresh
    lifetime positive): it returns a new pair whose refresh token carries
    [refresh_jti], has first persisted the session of [refresh_jti], live,
    and then marked the old session revoked with [replaced_by_jti] equal to
    [refresh_jti].  After that, and after any further [AuthService] calls,
    every [refresh_tokens] call with the same token raises
    [ValueError("Refresh token revoked")] and writes nothing. *)
Theorem rotation_is_single_use `{PyRuntime} `{Jwt}
    (settings : Settings) (db : Store) (token : Token) (jti : string)
    (session : Session) (user : User) (expiry : Instant)
    (access_jti refresh_jti : string) (now : Instant) :
  refresh_token_of settings now token jti →
  refresh_sessions db !! jti = Some session →
  truthy (s_revoked_at session) = false →
  fromisoformat (s_expires_at session) = Some expiry → now < expiry →
  users db !! s_user_id session = Some user → u_is_active user ≠ 0 →
  refresh_sessions db !! refresh_jti = None →
  0 ≤ now → 0 < refresh_token_ttl_days settings →
  ∃ pair new_claims db',
    refresh_tokens settings token access_jti refresh_jti now db = (Return pair, db')
    ∧ jwt_decode settings now (tp_refresh_token pair) = Return new_claims
    ∧ c_jti new_claims = Some refresh_jti
    ∧ c_token_type new_claims = Some "refresh"
    ∧ db' = (revoke_refresh_session jti (c_jti new_claims) now
               (issue_token_pair settings user access_jti refresh_jti now db).2).2
    ∧ refresh_sessions db' !! refresh_jti
      = Some (mkSession refresh_jti (u_user_id user)
                (isoformat (now + timedelta_days (refresh_token_ttl_days settings)))
                (isoformat now) None None)
    ∧ refresh_sessions db' !! jti
      = Some (mkSession (s_jti session) (s_user_id session) (s_expires_at session)
                (s_created_at session) (Some (isoformat now)) (Some refresh_jti))
    ∧ ∀ ops token_now a r,
        refresh_token_of settings token_now token jti →
        refresh_tokens settings token a r token_now (run_auth_ops settings ops db')
        = (Raise (ValueError "Refresh token revoked"),
           run_auth_ops settings ops db').
Proof.
  intros Htok Hs Hrev Hexp Hlt Hu Hact Hfresh Hnow Httl.
  assert (refresh_jti ≠ jti) as Hne by congruence.
  eexists _, _, _. split; [by eapply refresh_tokens_live|].
  split; [by apply decode_issued_refresh|].
  split; [done|]. split; [done|].
  assert (refresh_sessions
            (with_sessions <[jti := revoked_row session (Some refresh_jti) now]>
               (with_sessions
                  <[refresh_jti := issued_session settings user refresh_jti now]>
                  db)) !! jti
          = Some (revoked_row session (Some refresh_jti) now)) as Hold.
  { unfold with_sessions; cbn. by rewrite lookup_insert_eq. }
  split; [|split; [|split]].
  - rewrite issue_token_pair_fresh by done. cbn [snd].
    erewrite revoke_refresh_session_known; [done|].
    unfold with_sessions; cbn. by rewrite lookup_insert_ne.
  - unfold with_sessions; cbn.
    rewrite lookup_insert_ne by done. by rewrite lookup_insert_eq.
  - exact Hold.
  - intros ops token_now a r Htok'.
    apply (refresh_tokens_revoked _ _ jti); [done|].
    apply run_auth_ops_revoked. eexists. split; [exact Hold|].
    apply isoformat_truthy.
Qed.

Definition demo_user : User :=
  mkUser "user-1" (Some "owner@example.com") (Some "pbkdf2-hash") None "user" 1
         "T0" "T0".

(** The store after ["user-1"] has logged in once, one second past the
    epoch. *)
Definition demo_login_store : Store :=
  (issue_token_pair demo_settings demo_user "access-1" "refresh-1" 1000000
     (mkStore {[ "user-1" := demo_user ]} ∅ ∅)).2.

Definition demo_refresh_token : Token :=
  tp_refresh_token
    (issued_pair demo_settings demo_user "access-1" "refresh-1" 1000000).

Definition demo_session : Session :=
  issued_session demo_settings demo_user "refresh-1" 1000000.

Lemma demo_refresh_token_of now :
  1000000 ≤ now < 1209601000000 →
  refresh_token_of demo_settings now demo_refresh_token "refresh-1".
Proof.
  intros Hnow.
  exists (_build_claims demo_settings demo_user "refresh" "refresh-1"
            (1000000 + timedelta_days (refresh_token_ttl_days demo_settings))
            1000000).
  split; [|done].
  apply (jwt_decode_encode demo_settings now); [done..|].
  change (1 * usec_per_second ≤ now < 1209601 * usec_per_second).
  unfold usec_per_second. lia.
Qed.

Lemma rotation_is_single_use_witness :
  ∃ pair db',
    refresh_tokens demo_settings demo_refresh_token "access-2" "refresh-2"
      2000000 demo_login_store = (Return pair, db')
    ∧ refresh_sessions db' !! "refresh-1"
      = Some (mkSession "refresh-1" "user-1" "T1209601000000" "T1000000"
                (Some "T2000000") (Some "refresh-2"))
    ∧ refresh_tokens demo_settings demo_refresh_token "access-3" "refresh-3"
        3000000 db'
      = (Raise (ValueError "Refresh token revoked"), db').
Proof.
  destruct (rotation_is_single_use demo_settings demo_login_store
              demo_refresh_token "refresh-1" demo_session demo_user
              1209601000000 "access-2" "refresh-2" 2000000)
    as (pair & new_claims & db' & Hrun & _ & _ & _ & _ & _ & Hold & Hagain).
  - apply demo_refresh_token_of. lia.
  - vm_compute; reflexivity.
  - reflexivity.
  - vm_compute; reflexivity.
  - lia.
  - vm_compute; reflexivity.
  - cbn. lia.
  - vm_compute; reflexivity.
  - lia.
  - cbn. lia.
  - exists pair, db'. split; [exact Hrun|]. split.
    + rewrite Hold. vm_compute; reflexivity.
    + apply (Hagain [] 3000000 "access-3" "refresh-3").
      apply demo_refresh_token_of. lia.
Defined.

(** ** C7: revoking twice *)

Lemma revoke_refresh_token_known `{PyRuntime} `{Jwt}
    settings token jti now db s :
  refresh_token_of settings now token jti →
  refresh_sessions db !! jti = Some s →
  revoke_refresh_token settings token now db
  = (Return tt, with_sessions <[jti := revoked_row s None now]> db).
Proof.
  intros (claims & Hdec & Htype & Hjti & Hne) Hs.
  unfold revoke_refresh_token, _decode. run.
  rewrite Hdec, Htype, Hjti. rewrite bool_decide_eq_true_2 by done.
  rewrite truthy_Some_nonempty by done. cbn [negb from_option id].
  by apply revoke_refresh_session_known.
Qed.

(** C7, as the code has it.  For a refresh token whose session is on
    record, [revoke_refresh_token] returns normally the first and the second
    time.  The second call rewrites one column of the session,
    [revoked_at], to the time of the second call; the session stays
    revoked, [replaced_by_jti] and every other column keep the value they
    had after the first call, and so does every other row of the store.
    The store after the second call equals the store after the first
    exactly when both calls read the same clock value. *)
Theorem second_revoke_rewrites_revoked_at `{PyRuntime} `{Jwt}
    (settings : Settings) (db : Store) (token : Token) (jti : string)
    (session : Session) (now1 now2 : Instant) :
  refresh_token_of settings now1 token jti →
  refresh_token_of settings now2 token jti →
  refresh_sessions db !! jti = Some session →
  ∃ db1 db2 s1 s2,
    revoke_refresh_token settings token now1 db = (Return tt, db1)
    ∧ revoke_refresh_token settings token now2 db1 = (Return tt, db2)
    ∧ refresh_sessions db1 !! jti = Some s1
    ∧ refresh_sessions db2 !! jti = Some s2
    ∧ s_revoked_at s1 = Some (isoformat now1)
    ∧ s_revoked_at s2 = Some (isoformat now2)
    ∧ truthy (s_revoked_at s2) = true
    ∧ s_replaced_by_jti s2 = s_replaced_by_jti s1
    ∧ s_replaced_by_jti s1 = s_replaced_by_jti session
    ∧ s_jti s2 = s_jti s1 ∧ s_user_id s2 = s_user_id s1
    ∧ s_expires_at s2 = s_expires_at s1 ∧ s_created_at s2 = s_created_at s1
    ∧ (∀ k, k ≠ jti → refresh_sessions db2 !! k = refresh_sessions db1 !! k)
    ∧ users db2 = users db1 ∧ jobs db2 = jobs db1
    ∧ (db2 = db1 ↔ now2 = now1).
Proof.
  intros Htok1 Htok2 Hs.
  set (s1 := revoked_row session None now1).
  set (db1 := with_sessions <[jti := s1]> db).
  assert (refresh_sessions db1 !! jti = Some s1) as Hs1.
  { unfold db1, with_sessions; cbn. by rewrite lookup_insert_eq. }
  set (s2 := revoked_row s1 None now2).
  set (db2 := with_sessions <[jti := s2]> db1).
  assert (refresh_sessions db2 !! jti = Some s2) as Hs2.
  { unfold db2, with_sessions; cbn. by rewrite lookup_insert_eq. }
  exists db1, db2, s1, s2.
  split; [by apply revoke_refresh_token_known|].
  split; [by apply revoke_refresh_token_known|].
  do 2 (split; [done|]).
  split; [done|]. split; [done|].
  split; [apply isoformat_truthy|].
  split; [by destruct (s_replaced_by_jti session)|].
  split; [done|].
  do 4 (split; [done|]).
  split.
  { intros k Hk. unfold db2, with_sessions; cbn. by rewrite lookup_insert_ne. }
  do 2 (split; [done|]).
  split.
  - intros Heq. rewrite Heq in Hs2. rewrite Hs1 in Hs2.
    injection Hs2 as Hiso. symmetry. by apply isoformat_inj in Hiso.
  - intros ->. unfold db2, db1, with_sessions; cbn. f_equal.
    by rewrite insert_insert_eq.
Qed.

Lemma second_revoke_rewrites_revoked_at_witness :
  ∃ db1 db2,
    revoke_refresh_token demo_settings demo_refresh_token 2000000
      demo_login_store = (Return tt, db1)
    ∧ revoke_refresh_token demo_settings demo_refresh_token 3000000 db1
      = (Return tt, db2)
    ∧ s_revoked_at <$> refresh_sessions db1 !! "refresh-1"
      = Some (Some "T2000000")
    ∧ s_revoked_at <$> refresh_sessions db2 !! "refresh-1"
      = Some (Some "T3000000").
Proof.
  destruct (second_revoke_rewrites_revoked_at demo_settings demo_login_store
              demo_refresh_token "refresh-1" demo_session 2000000 3000000)
    as (db1 & db2 & s1 & s2 & Hrun1 & Hrun2 & Hs1 & Hs2 & Hr1 & Hr2 & _).
  - apply demo_refresh_token_of. lia.
  - apply demo_refresh_token_of. lia.
  - vm_compute; reflexivity.
  - exists db1, db2. rewrite Hs1, Hs2. cbn. rewrite Hr1, Hr2.
    repeat split; assumption || reflexivity.
Defined.

(** C7 as stated fails: the session stored after the second revoke is not
    the session stored after the first, its [revoked_at] has moved. *)
Lemma second_revoke_changes_state_counterexample :
  ¬ (∀ (settings : Settings) (db : Store) (token : Token) (jti : string)
       (session : Session) (now1 now2 : Instant),
       refresh_token_of settings now1 token jti →
       refresh_token_of settings now2 token jti →
       refresh_sessions db !! jti = Some session →
       let db1 := (revoke_refresh_token settings token now1 db).2 in
       let db2 := (revoke_refresh_token settings token now2 db1).2 in
       refresh_sessions db2 !! jti = refresh_sessions db1 !! jti).
Proof.
  intros Hall.
  specialize (Hall demo_settings demo_login_store demo_refresh_token "refresh-1"
                demo_session 2000000 3000000
                (demo_refresh_token_of 2000000 ltac:(lia))
                (demo_refresh_token_of 3000000 ltac:(lia))
                ltac:(vm_compute; reflexivity)).
  vm_compute in Hall. discriminate Hall.
Qed.

(** * More of the Job Store *)

(** ** Creating and reading back *)

(** X1.  [create_job] on a free id returns the new row, which its owner
    reads back with [get_job_for_user]: owned by the caller, ["queued"], at
    progress 0, without error or completion time, carrying the parameters
    passed (the empty map when none are); no other row changes.  On an id
    already in the table it raises [IntegrityError] and writes nothing. *)
Theorem create_job_then_get `{PyRuntime}
    (user_id : string) (i : option string) (p : option Params)
    (o r job_id : option string) (uuid : string) (now : Instant) (db : Store) :
  let new_id := if truthy job_id then default uuid job_id else uuid in
  (jobs db !! new_id = None →
   ∃ job db',
     create_job user_id i p o r job_id uuid now db = (Return job, db')
     ∧ get_job_for_user user_id new_id db' = (Return (Some job), db')
     ∧ j_job_id job = new_id ∧ j_user_id job = user_id
     ∧ j_status job = "queued" ∧ j_progress_percent job = 0%Q
     ∧ j_error_message job = None ∧ j_completed_at job = None
     ∧ j_parameters job = default ∅ p
     ∧ j_created_at job = _utc_now_iso now
     ∧ ∀ k, k ≠ new_id → jobs db' !! k = jobs db !! k)
  ∧ (is_Some (jobs db !! new_id) →
     ∃ msg, create_job user_id i p o r job_id uuid now db
            = (Raise (IntegrityError msg), db)).
Proof.
  intros new_id. split.
  - intros Hfree. eexists _, _. split.
    + rewrite create_job_run. fold new_id. by rewrite Hfree.
    + split.
      * unfold get_job_for_user. run. unfold select_job_for_user, with_jobs; cbn.
        rewrite lookup_insert_eq; cbn. by rewrite String.eqb_refl.
      * repeat split; try done. intros k Hk. unfold with_jobs; cbn.
        by rewrite lookup_insert_ne.
  - intros [j Hj]. eexists. rewrite create_job_run. fold new_id. by rewrite Hj.
Qed.

Lemma create_job_then_get_witness :
  ∃ job db',
    create_job "alice" None None None None None "uuid-8" 1000 empty_store
    = (Return job, db')
    ∧ get_job_for_user "alice" "uuid-8" db' = (Return (Some job), db')
    ∧ j_status job = "queued".
Proof.
  destruct (proj1 (create_job_then_get "alice" None None None None None "uuid-8"
                     1000 empty_store))
    as (job & db' & Hrun & Hget & _ & _ & Hst & _).
  - vm_compute; reflexivity.
  - exists job, db'. repeat split; assumption.
Defined.

(** ** What a transition keeps *)

(** X2.  A transition that passes only the new status rewrites, on the
    caller's job, the status and [completed_at], and the progress only when
    the new status is ["completed"] (then 100); [error_message],
    [input_file], [results_csv], the parameter map and [output_dir] keep
    their stored values, as do [job_id], owner and [created_at], which no
    argument of [update_status_for_user] can change; every other row of the
    table is untouched. *)
Theorem update_status_for_user_retains_omitted `{PyRuntime}
    (db : Store) (user_id job_id status : string) (ex : Job) (now : Instant) :
  status ∈ VALID_STATUSES →
  select_job_for_user db user_id job_id = Some ex →
  ∃ j' db',
    update_status_for_user user_id job_id status
      None None None None None None None now db = (Return j', db')
    ∧ jobs db' !! job_id = Some j'
    ∧ j_status j' = status
    ∧ j_progress_percent j'
      = (if String.eqb status "completed" then 100%Q else j_progress_percent ex)
    ∧ j_error_message j' = j_error_message ex
    ∧ j_input_file j' = j_input_file ex
    ∧ j_results_csv j' = j_results_csv ex
    ∧ j_parameters j' = j_parameters ex
    ∧ j_output_dir j' = j_output_dir ex
    ∧ (∀ pr e i p o r c,
         ∃ j'',
           (update_status_for_user user_id job_id status pr e i p o r c now db).1
           = Return j''
           ∧ j_job_id j'' = j_job_id ex ∧ j_user_id j'' = j_user_id ex
           ∧ j_created_at j'' = j_created_at ex)
    ∧ ∀ k, k ≠ job_id → jobs db' !! k = jobs db !! k.
Proof.
  intros Hv Hsel. eexists _, _.
  split; [by apply update_status_for_user_known|].
  split. { unfold with_jobs; cbn. by rewrite lookup_insert_eq. }
  split; [done|]. split.
  { cbn. destruct (String.eqb status "completed"); [done|]. by destruct (_ || _). }
  do 5 (split; [done|]).
  split.
  - intros pr e i p o r c. eexists.
    by rewrite (update_status_for_user_known _ _ _ _ _ _ _ _ _ _ _ _ ex).
  - intros k Hk. unfold with_jobs; cbn. by rewrite lookup_insert_ne.
Qed.

Lemma update_status_for_user_retains_omitted_witness :
  ∃ j' db',
    update_status_for_user "alice" "job-3" "processing"
      None None None None None None None 4000 (store requeued_server)
    = (Return j', db')
    ∧ j_error_message j' = Some "Missing required columns"
    ∧ j_progress_percent j' = 0%Q.
Proof.
  destruct (select_job_for_user (store requeued_server) "alice" "job-3")
    as [ex|] eqn:Hsel; [|by vm_compute in Hsel].
  destruct (update_status_for_user_retains_omitted (store requeued_server)
              "alice" "job-3" "processing" ex 4000)
    as (j' & db' & Hrun & _ & _ & Hpr & Herr & _).
  - apply valid_status_cases. tauto.
  - exact Hsel.
  - exists j', db'. split; [exact Hrun|].
    vm_compute in Hsel. injection Hsel as <-. by rewrite Hpr, Herr.
Defined.

(** ** Writes stay with their owner *)

(** The [user_id] a Job Store call is made for. *)
Definition op_user (op : JobOp) : string :=
  match op with
  | Create_job u _ _ _ _ _ _ => u
  | Update_status_for_user u _ _ _ _ _ _ _ _ _ => u
  | Update_progress_for_user u _ _ => u
  | Save_upload _ u _ _ _ => u
  end.

Lemma run_op_other_owner `{PyRuntime} op now db k j :
  jobs db !! k = Some j → j_user_id j ≠ op_user op →
  jobs (run_op op now db) !! k = Some j.
Proof.
  intros Hj Hown.
  assert (∀ jid, select_job_for_user db (op_user op) jid = Some j → False)
    as Hnot.
  { intros jid [_ ?]%select_job_for_user_Some. done. }
  assert (∀ jid ex row, select_job_for_user db (op_user op) jid = Some ex →
            jobs (with_jobs <[jid := row]> db) !! k = Some j) as Hins.
  { intros jid ex row Hsel. unfold with_jobs; cbn.
    rewrite lookup_insert. case_decide; [subst|done].
    apply select_job_for_user_Some in Hsel as [Hex Hu]. congruence. }
  destruct op as [u i p o r jid uuid | u jid st pr e i p o r c
                 | u jid pr | d u jid f w]; cbn [run_op op_user] in *.
  - rewrite create_job_run.
    destruct (jobs db !! (if truthy jid then default uuid jid else uuid))
      eqn:Hnew; cbn; [done|].
    unfold with_jobs; cbn. rewrite lookup_insert_ne; [done|congruence].
  - destruct (update_status_for_user_store u jid st pr e i p o r c now db)
      as [-> | (ex & _ & Hsel & ->)]; [done|by eapply Hins].
  - pose proof (update_progress_for_user_store u jid pr db) as Hst.
    destruct Hst as [-> | (ex & p' & Hsel & ->)]; [done|by eapply Hins].
  - unfold save_upload. destruct w as [exn|]; [done|]. run.
    pose proof (update_status_for_user_store u jid "queued" None None
      (Some (get_upload_path d u jid f)) None None None None now db) as Hst.
    destruct (update_status_for_user u jid "queued" _ _ _ _ _ _ _ now db)
      as [[exn|job] db'] eqn:Hrun; cbn in *;
      (destruct Hst as [-> | (ex & _ & Hsel & ->)]; [done|by eapply Hins]).
Qed.

(** X3.  Whatever Job Store calls other users make, in any number and
    order, with any arguments (the job's own id included), a job stays
    exactly as it was: same row under the same id. *)
Theorem jobs_untouched_by_other_users `{PyRuntime}
    (ops : list (JobOp * Instant)) (db : Store) (job_id : string) (j : Job) :
  jobs db !! job_id = Some j →
  Forall (λ step, op_user step.1 ≠ j_user_id j) ops →
  jobs (run_ops ops db) !! job_id = Some j.
Proof.
  intros Hj Hops. revert db Hj.
  induction Hops as [|[op now] ops Hop _ IH]; intros db Hj; cbn; [done|].
  apply IH. apply run_op_other_owner; [done|]. cbn in Hop. congruence.
Qed.

Definition intruder_history : list (JobOp * Instant) :=
  [ (Update_status_for_user "bob" "job-6" "failed" (Some 100%Q) (Some "x")
       None None None None None, 2000);
    (Update_progress_for_user "bob" "job-6" 50, 3000);
    (Save_upload "/data/uploads" "bob" "job-6" "evil.csv" None, 4000);
    (Create_job "bob" None None None None (Some "job-6") "uuid-9", 5000) ].

Lemma jobs_untouched_by_other_users_witness :
  jobs (run_ops intruder_history demo_owned_store) !! "job-6"
  = Some demo_owned_job.
Proof.
  apply jobs_untouched_by_other_users.
  - vm_compute; reflexivity.
  - unfold intruder_history. repeat constructor; cbn; discriminate.
Defined.

(** ** Rows are permanent *)

Lemma run_op_keeps_identity `{PyRuntime} op now db k j :
  jobs db !! k = Some j →
  ∃ j', jobs (run_op op now db) !! k = Some j'
        ∧ j_job_id j' = j_job_id j ∧ j_user_id j' = j_user_id j
        ∧ j_created_at j' = j_created_at j.
Proof.
  intros Hj.
  assert (∀ jid ex row, select_job_for_user db (j_user_id row) jid = Some ex →
            j_job_id row = j_job_id ex → j_created_at row = j_created_at ex →
            ∃ j', jobs (with_jobs <[jid := row]> db) !! k = Some j'
                  ∧ j_job_id j' = j_job_id j ∧ j_user_id j' = j_user_id j
                  ∧ j_created_at j' = j_created_at j) as Hins.
  { intros jid ex row Hsel Hid Hcr. unfold with_jobs; cbn.
    rewrite lookup_insert. case_decide; [subst|by exists j].
    apply select_job_for_user_Some in Hsel as [Hex Hu].
    rewrite Hj in Hex. injection Hex as <-. by exists row. }
  destruct op as [u i p o r jid uuid | u jid st pr e i p o r c
                 | u jid pr | d u jid f w]; cbn [run_op].
  - rewrite create_job_run.
    destruct (jobs db !! (if truthy jid then default uuid jid else uuid))
      eqn:Hnew; cbn; [by exists j|].
    exists j. unfold with_jobs; cbn.
    rewrite lookup_insert_ne; [done|congruence].
  - destruct (update_status_for_user_store u jid st pr e i p o r c now db)
      as [-> | (ex & _ & Hsel & ->)]; [by exists j|].
    apply Hins with ex; [|done..]. cbn.
    by apply select_job_for_user_Some in Hsel as Hsel'; destruct Hsel' as [_ ->].
  - pose proof (update_progress_for_user_store u jid pr db) as Hst.
    destruct Hst as [-> | (ex & p' & Hsel & ->)]; [by exists j|].
    apply Hins with ex; [|done..]. cbn.
    by apply select_job_for_user_Some in Hsel as Hsel'; destruct Hsel' as [_ ->].
  - unfold save_upload. destruct w as [exn|]; [by exists j|]. run.
    pose proof (update_status_for_user_store u jid "queued" None None
      (Some (get_upload_path d u jid f)) None None None None now db) as Hst.
    destruct (update_status_for_user u jid "queued" _ _ _ _ _ _ _ now db)
      as [[exn|job] db'] eqn:Hrun; cbn in *;
      (destruct Hst as [-> | (ex & _ & Hsel & ->)]; [by exists j|];
       apply Hins with ex; [|done..]; cbn;
       by apply select_job_for_user_Some in Hsel as Hsel';
          destruct Hsel' as [_ ->]).
Qed.

(** X4.  The Job Store never deletes a job and never moves one: after any
    sequence of calls, by anyone, a job that was on record is still on
    record under the same id, with the same [job_id], owner and
    [created_at]. *)
Theorem jobs_are_permanent `{PyRuntime}
    (ops : list (JobOp * Instant)) (db : Store) (job_id : string) (j : Job) :
  jobs db !! job_id = Some j →
  ∃ j', jobs (run_ops ops db) !! job_id = Some j'
        ∧ j_job_id j' = j_job_id j ∧ j_user_id j' = j_user_id j
        ∧ j_created_at j' = j_created_at j.
Proof.
  revert db j. induction ops as [|[op now] ops IH]; intros db j Hj; cbn.
  - by exists j.
  - destruct (run_op_keeps_identity op now db job_id j Hj)
      as (j1 & Hj1 & Hid & Hu & Hc).
    destruct (IH _ _ Hj1) as (j' & Hj' & Hid' & Hu' & Hc').
    exists j'. repeat split; congruence.
Qed.

Lemma jobs_are_permanent_witness :
  ∃ j', jobs (run_ops demo_history demo_owned_store) !! "job-6" = Some j'
        ∧ j_user_id j' = "alice" ∧ j_created_at j' = "T1000".
Proof.
  destruct (jobs_are_permanent demo_history demo_owned_store "job-6"
              demo_owned_job) as (j' & Hj' & _ & Hu & Hc).
  - vm_compute; reflexivity.
  - exists j'. repeat split; assumption.
Defined.

(** ** Rows reached from the empty database *)

Definition row_well_formed (k : string) (j : Job) : Prop :=
  j_job_id j = k ∧ j_status j ∈ VALID_STATUSES.

Lemma run_op_well_formed `{PyRuntime} op now db :
  (∀ k j, jobs db !! k = Some j → row_well_formed k j) →
  ∀ k j, jobs (run_op op now db) !! k = Some j → row_well_formed k j.
Proof.
  intros Hdb.
  assert (∀ jid row, row_well_formed jid row →
            ∀ k j, jobs (with_jobs <[jid := row]> db) !! k = Some j →
                   row_well_formed k j) as Hins.
  { intros jid row Hrow k j. unfold with_jobs; cbn.
    rewrite lookup_insert. case_decide; [|apply Hdb].
    intros [= <-]. by subst. }
  destruct op as [u i p o r jid uuid | u jid st pr e i p o r c
                 | u jid pr | d u jid f w]; cbn [run_op].
  - rewrite create_job_run.
    destruct (jobs db !! (if truthy jid then default uuid jid else uuid))
      eqn:Hnew; cbn; [done|].
    apply Hins. split; [done|]. apply valid_status_cases; cbn. tauto.
  - destruct (update_status_for_user_store u jid st pr e i p o r c now db)
      as [-> | (ex & Hv & Hsel & ->)]; [done|].
    apply Hins. apply select_job_for_user_Some in Hsel as [Hex _].
    split; [|done]. cbn. by apply (Hdb _ _ Hex).
  - pose proof (update_progress_for_user_store u jid pr db) as Hst.
    destruct Hst as [-> | (ex & p' & Hsel & ->)]; [done|].
    apply Hins. apply select_job_for_user_Some in Hsel as [Hex _].
    destruct (Hdb _ _ Hex). by split.
  - unfold save_upload. destruct w as [exn|]; [done|]. run.
    pose proof (update_status_for_user_store u jid "queued" None None
      (Some (get_upload_path d u jid f)) None None None None now db) as Hst.
    destruct (update_status_for_user u jid "queued" _ _ _ _ _ _ _ now db)
      as [[exn|job] db'] eqn:Hrun; cbn in *;
      (destruct Hst as [-> | (ex & Hv & Hsel & ->)]; [done|];
       apply Hins; apply select_job_for_user_Some in Hsel as [Hex _];
       split; [|done]; cbn; by apply (Hdb _ _ Hex)).
Qed.

(** X5.  In every store reached from the empty database by Job Store calls,
    each row sits under its own [job_id] and carries one of the four
    statuses of the enum. *)
Theorem reachable_rows_well_formed `{PyRuntime}
    (ops : list (JobOp * Instant)) (k : string) (j : Job) :
  jobs (run_ops ops empty_store) !! k = Some j →
  j_job_id j = k ∧ j_status j ∈ VALID_STATUSES.
Proof.
  assert (∀ k j, jobs empty_store !! k = Some j → row_well_formed k j) as Hinit.
  { intros k' j'. unfold empty_store; cbn. by rewrite lookup_empty. }
  revert Hinit. generalize empty_store. revert k j.
  induction ops as [|[op now] ops IH]; intros k j db Hdb; cbn; [apply Hdb|].
  apply IH. by apply run_op_well_formed.
Qed.

Lemma reachable_rows_well_formed_witness :
  j_job_id demo_failed_job = "job-1"
  ∧ j_status demo_failed_job ∈ VALID_STATUSES.
Proof.
  apply (reachable_rows_well_formed demo_history "job-1" demo_failed_job).
  vm_compute; reflexivity.
Defined.

(** ** Listing *)

#[export] Instance created_desc_total : Total created_desc.
Proof.
  intros a b. unfold created_desc.
  destruct (String.leb_total (j_created_at b) (j_created_at a)); auto.
Qed.





(** ** Uploading again *)



(** * More of the background execution *)

Lemma only_progress_changed_other user_id job_id db db' k :
  only_progress_changed user_id job_id db db' → k ≠ job_id →
  jobs db' !! k = jobs db !! k.
Proof.
  intros [-> | (ex & p & _ & ->)] Hk; [done|].
  unfold with_jobs; cbn. by rewrite lookup_insert_ne.
Qed.

Lemma report_all_returns user_id job_id reports db ex :
  select_job_for_user db user_id job_id = Some ex →
  ∃ db', report_all (progress_callback user_id job_id) reports db = (Return tt, db')
         ∧ only_progress_changed user_id job_id db db'.
Proof.
  revert db ex. induction reports as [|[p msg] reports IH]; intros db ex Hsel; cbn.
  - exists db. split; [done|by left].
  - unfold progress_callback. run.
    rewrite (update_progress_for_user_known _ _ _ _ ex) by done.
    set (db1 := with_jobs <[job_id := progress_row ex (py_max 10 (py_min 95 p))]> db).
    assert (only_progress_changed user_id job_id db db1) as H1 by (right; eauto).
    destruct (only_progress_changed_select _ _ _ _ _ H1 Hsel) as [p1 Hsel1].
    destruct (IH db1 _ Hsel1) as (db' & Hrun & H2).
    exists db'. split; [done|]. by eapply only_progress_changed_trans.
Qed.

(** The parameter map a successful run stores: the job's own, with the four
    result fields added or overwritten. *)
Definition merged_params (current : Params) (n_rows : Z) (model_type : string)
    (elapsed : Q) (model_results : Params) : Params :=
  <["models_run" := default (JList []) (model_results !! "models_run")]>
  (<["processing_time_seconds" := JFloat elapsed]>
  (<["model_type" := JStr model_type]>
  (<["sample_count" := JInt n_rows]> current))).

(** A [try] block that returns for a job of the caller has written the
    completed row over a store in which only that job's progress moved. *)
Lemma run_analysis_body_returns `{PyRuntime} env data_dir user_id job_id now db
    job db' :
  select_job_for_user db user_id job_id = Some job →
  run_analysis_body env data_dir user_id job_id now db = (Return tt, db') →
  ∃ db2 before n_rows model_type model_results,
    only_progress_changed user_id job_id db db2
    ∧ select_job_for_user db2 user_id job_id = Some before
    ∧ db' = with_jobs
        <[job_id := status_row before "completed" (Some 100%Q) None None
            (Some (merged_params (j_parameters job) n_rows model_type
                     (elapsed env) model_results))
            (Some (data_dir +:+ "/outputs/" +:+ user_id +:+ "/" +:+ job_id))
            (Some ((data_dir +:+ "/outputs/" +:+ user_id +:+ "/" +:+ job_id)
                   +:+ "/contributions.csv")) None now]> db2.
Proof.
  intros Hsel. unfold run_analysis_body, get_job_for_user. run. rewrite Hsel.
  destruct (truthy (j_input_file job)); cbn [negb]; [|done].
  destruct (path_exists env _); cbn [negb]; [|done].
  destruct (mkdir env _) as [e0|[]]; [done|].
  destruct (load env _) as [e0|dataframe]; [done|].
  rewrite (update_progress_for_user_known _ _ _ _ job) by done.
  set (db1 := with_jobs <[job_id := progress_row job 10]> db).
  assert (only_progress_changed user_id job_id db db1) as H1 by (right; eauto).
  destruct (only_progress_changed_select _ _ _ _ _ H1 Hsel) as [p1 Hsel1].
  destruct (validate_parameters env _) as [e0|pp]; [done|].
  destruct (run_analysis env dataframe pp) as [reports ending].
  destruct (report_all_returns user_id job_id reports db1 _ Hsel1)
    as (db2 & -> & H2).
  assert (only_progress_changed user_id job_id db db2) as H12
    by by eapply only_progress_changed_trans.
  destruct (only_progress_changed_select _ _ _ _ _ H12 Hsel) as [p2 Hsel2].
  destruct ending as [e0|model_results]; [done|].
  destruct (build_contributions_csv env dataframe _) as [e0|[n_rows model_type]];
    [done|].
  rewrite (update_status_for_user_known _ _ _ _ _ _ _ _ _ _ _ _
             (progress_row job p2)); [|apply valid_status_cases; tauto|done].
  intros [= <-].
  by exists db2, (progress_row job p2), n_rows, model_type, model_results.
Qed.

(** X8.  [_run_analysis] lets no exception out, whatever the collaborators
    do and whether or not the job exists.  For a job that is not the
    caller's it writes nothing.  For a job of the caller it ends with the
    job ["completed"] or ["failed"], at progress 100 and with a completion
    time, under the same owner, and with every other job of the table as it
    was. *)
Theorem run_analysis_always_ends_terminal `{PyRuntime}
    (env : Collaborators) (data_dir user_id job_id : string) (now : Instant)
    (db : Store) :
  (_run_analysis env data_dir user_id job_id now db).1 = Return tt
  ∧ (select_job_for_user db user_id job_id = None →
     (_run_analysis env data_dir user_id job_id now db).2 = db)
  ∧ (∀ job, select_job_for_user db user_id job_id = Some job →
       ∃ job',
         jobs (_run_analysis env data_dir user_id job_id now db).2 !! job_id
         = Some job'
         ∧ (j_status job' = "completed" ∨ j_status job' = "failed")
         ∧ j_progress_percent job' = 100%Q
         ∧ j_completed_at job' = Some (_utc_now_iso now)
         ∧ j_user_id job' = j_user_id job
         ∧ ∀ k, k ≠ job_id →
             jobs (_run_analysis env data_dir user_id job_id now db).2 !! k
             = jobs db !! k).
Proof.
  destruct (select_job_for_user db user_id job_id) as [job|] eqn:Hsel.
  - assert (∃ job',
      (_run_analysis env data_dir user_id job_id now db).1 = Return tt
      ∧ jobs (_run_analysis env data_dir user_id job_id now db).2 !! job_id
        = Some job'
      ∧ (j_status job' = "completed" ∨ j_status job' = "failed")
      ∧ j_progress_percent job' = 100%Q
      ∧ j_completed_at job' = Some (_utc_now_iso now)
      ∧ j_user_id job' = j_user_id job
      ∧ ∀ k, k ≠ job_id →
          jobs (_run_analysis env data_dir user_id job_id now db).2 !! k
          = jobs db !! k) as (job' & Hret & Hrest).
    { unfold _run_analysis, try_except.
      destruct (run_analysis_body env data_dir user_id job_id now db)
        as [[error|[]] db1] eqn:Hbody.
      - pose proof (run_analysis_body_raises _ _ _ _ _ _ _ _ Hbody) as Hchg.
        destruct (only_progress_changed_select _ _ _ _ _ Hchg Hsel) as [p Hsel1].
        rewrite (run_analysis_handler_known _ _ _ _ _ _ Hsel1).
        eexists. split; [done|]. cbn. rewrite lookup_insert_eq.
        repeat split; try done; [by right|].
        intros k Hk. rewrite lookup_insert_ne by done.
        by eapply only_progress_changed_other.
      - destruct (run_analysis_body_returns _ _ _ _ _ _ _ _ Hsel Hbody)
          as (db2 & before & n & mt & mr & Hchg & Hsel2 & ->).
        destruct (only_progress_changed_select _ _ _ _ _ Hchg Hsel)
          as [p Hsel2']. rewrite Hsel2 in Hsel2'. injection Hsel2' as ->.
        eexists. split; [done|]. cbn. rewrite lookup_insert_eq.
        repeat split; try done; [by left|].
        intros k Hk. rewrite lookup_insert_ne by done.
        by eapply only_progress_changed_other. }
    split; [done|]. split; [done|].
    intros job0 [= <-]. by exists job'.
  - assert (_run_analysis env data_dir user_id job_id now db = (Return tt, db))
      as ->.
    { unfold _run_analysis, try_except, run_analysis_body, get_job_for_user.
      run. by rewrite Hsel. }
    by repeat split.
Qed.

Lemma run_analysis_always_ends_terminal_witness :
  ∃ job',
    jobs (_run_analysis boom_env "/data" "alice" "job-7" 4000 boom_store).2
      !! "job-7" = Some job'
    ∧ (j_status job' = "completed" ∨ j_status job' = "failed")
    ∧ j_progress_percent job' = 100%Q.
Proof.
  destruct (proj2 (proj2 (run_analysis_always_ends_terminal boom_env "/data"
                            "alice" "job-7" 4000 boom_store))
              boom_job ltac:(vm_compute; reflexivity))
    as (job' & Hj' & Hst & Hpr & _).
  exists job'. repeat split; assumption.
Defined.




(** * More of the session manager *)

(** A concrete [str.strip] for evaluating: it trims ASCII blanks. *)
Fixpoint drop_blanks (s : string) : string :=
  match s with
  | String c rest =>
      if bool_decide (c ∈ [" "; "009"; "010"; "013"]%char) then drop_blanks rest
      else s
  | EmptyString => EmptyString
  end.

#[export] Instance demo_str : PyStr := {|
  py_strip := λ s,
    String.rev (drop_blanks (String.rev (drop_blanks s)))
|}.

(** A concrete credential verifier for evaluating: a hash is the password
    behind a marker, whatever the salt. *)
Definition demo_pwd_verify (password hash : string) : Outcome Exn bool :=
  match hash with
  | String "$" rest => Return (String.eqb rest password)
  | _ => Raise (ValueError "hash could not be identified")
  end.

#[export] Instance demo_pwd : PasswordContext := {|
  pwd_hash := λ password salt, String "$" password;
  pwd_verify := demo_pwd_verify;
  pwd_hash_nonempty := λ password salt, ltac:(done);
  pwd_verify_hash := λ password salt,
    f_equal Return (String.eqb_refl password)
|}.

(** ** Verifying access tokens *)

Section AccessTokens.
Context `{PyRuntime} `{Jwt} `{PyStr}.

Lemma decode_built_claims settings user kind jti expires_at issued_at now :
  timestamp_int issued_at * usec_per_second ≤ now
    < timestamp_int expires_at * usec_per_second →
  jwt_decode settings now
    (_encode settings (_build_claims settings user kind jti expires_at issued_at))
  = Return (_build_claims settings user kind jti expires_at issued_at).
Proof. intros Hwin. unfold _encode. by apply jwt_decode_encode. Qed.

Lemma verify_access_token_steps settings token now db claims :
  jwt_decode settings now token = Return claims →
  c_token_type claims = Some "access" →
  verify_access_token settings token now db
  = let user_id := py_strip (if truthy (c_sub claims)
                             then default "" (c_sub claims) else "") in
    if String.eqb user_id "" then (Raise (ValueError "Token missing subject"), db)
    else match users db !! user_id with
         | None => (Raise (ValueError "User is not active"), db)
         | Some user =>
             if u_is_active user =? 0
             then (Raise (ValueError "User is not active"), db)
             else (Return (mkIdentity user_id (u_email user) (u_role user)), db)
         end.
Proof.
  intros Hdec Htype. unfold verify_access_token, _decode, get_user_by_id. run.
  rewrite Hdec, Htype. rewrite bool_decide_eq_true_2 by done. cbn [negb].
  destruct (String.eqb _ ""); [done|].
  destruct (users db !! _) as [user|]; [|done].
  by destruct (u_is_active user =? 0).
Qed.

End AccessTokens.

(** X10.  The access token of an issued pair, presented between its
    issue time and its expiry, resolves to the user it was issued to: for
    a user id that [strip] leaves alone, [verify_access_token] returns that
    id with the e-mail and role now on the user's row, and writes nothing.
    Once the row is gone or deactivated it raises
    [ValueError("User is not active")], again without a write. *)
Theorem issued_access_token_resolves `{PyRuntime} `{Jwt} `{PyStr}
    (settings : Settings) (user : User) (access_jti refresh_jti : string)
    (issued_at now : Instant) (db : Store) :
  let token :=
    tp_access_token (issued_pair settings user access_jti refresh_jti issued_at) in
  py_strip (u_user_id user) = u_user_id user → u_user_id user ≠ "" →
  timestamp_int issued_at * usec_per_second ≤ now
    < timestamp_int
        (issued_at + timedelta_minutes (access_token_ttl_minutes settings))
      * usec_per_second →
  (∀ row, users db !! u_user_id user = Some row → u_is_active row ≠ 0 →
     verify_access_token settings token now db
     = (Return (mkIdentity (u_user_id user) (u_email row) (u_role row)), db))
  ∧ ((users db !! u_user_id user = None
      ∨ ∃ row, users db !! u_user_id user = Some row ∧ u_is_active row = 0) →
     verify_access_token settings token now db
     = (Raise (ValueError "User is not active"), db)).
Proof.
  intros token Hstrip Hne Hwin.
  assert (verify_access_token settings token now db
          = if String.eqb (u_user_id user) ""
            then (Raise (ValueError "Token missing subject"), db)
            else match users db !! u_user_id user with
                 | None => (Raise (ValueError "User is not active"), db)
                 | Some row =>
                     if u_is_active row =? 0
                     then (Raise (ValueError "User is not active"), db)
                     else (Return (mkIdentity (u_user_id user) (u_email row)
                                     (u_role row)), db)
                 end) as ->.
  { erewrite verify_access_token_steps;
      [|by apply decode_built_claims|done].
    cbn [c_sub _build_claims]. rewrite truthy_Some_nonempty by done.
    cbn [from_option id]. by rewrite Hstrip. }
  destruct (String.eqb_spec (u_user_id user) ""); [done|].
  split.
  - intros row -> Hact. by destruct (Z.eqb_spec (u_is_active row) 0).
  - intros [-> | (row & -> & ->)]; done.
Qed.

Lemma issued_access_token_resolves_witness :
  verify_access_token demo_settings
    (tp_access_token
       (issued_pair demo_settings demo_user "access-1" "refresh-1" 1000000))
    60000000 demo_login_store
  = (Return (mkIdentity "user-1" (Some "owner@example.com") "user"),
     demo_login_store).
Proof.
  destruct (@issued_access_token_resolves demo_runtime demo_jwt demo_str
              demo_settings demo_user "access-1" "refresh-1" 1000000 60000000
              demo_login_store) as [Hlive _].
  - vm_compute; reflexivity.
  - discriminate.
  - vm_compute. split; [discriminate|reflexivity].
  - apply (Hlive demo_user); [vm_compute; reflexivity|discriminate].
Defined.

(** X11.  The two tokens of a pair are not interchangeable.  While it
    decodes, the access token is refused by [refresh_tokens] and by
    [revoke_refresh_token], and the refresh token by
    [verify_access_token], each with [ValueError("Invalid token type")] and
    no write. *)
Theorem token_types_do_not_mix `{PyRuntime} `{Jwt} `{PyStr}
    (settings : Settings) (user : User) (access_jti refresh_jti : string)
    (issued_at now : Instant) (db : Store) :
  let pair := issued_pair settings user access_jti refresh_jti issued_at in
  (timestamp_int issued_at * usec_per_second ≤ now
     < timestamp_int
         (issued_at + timedelta_minutes (access_token_ttl_minutes settings))
       * usec_per_second →
   (∀ a r, refresh_tokens settings (tp_access_token pair) a r now db
           = (Raise (ValueError "Invalid token type"), db))
   ∧ revoke_refresh_token settings (tp_access_token pair) now db
     = (Raise (ValueError "Invalid token type"), db))
  ∧ (timestamp_int issued_at * usec_per_second ≤ now
       < timestamp_int
           (issued_at + timedelta_days (refresh_token_ttl_days settings))
         * usec_per_second →
     verify_access_token settings (tp_refresh_token pair) now db
     = (Raise (ValueError "Invalid token type"), db)).
Proof.
  intros pair. split.
  - intros Hwin. split; [intros a r|].
    + unfold refresh_tokens, _decode. run. cbn [tp_access_token pair issued_pair].
      by rewrite decode_built_claims.
    + unfold revoke_refresh_token, _decode. run.
      cbn [tp_access_token pair issued_pair]. by rewrite decode_built_claims.
  - intros Hwin. unfold verify_access_token, _decode. run.
    cbn [tp_refresh_token pair issued_pair]. by rewrite decode_built_claims.
Qed.

Lemma token_types_do_not_mix_witness :
  verify_access_token demo_settings demo_refresh_token 60000000 demo_login_store
  = (Raise (ValueError "Invalid token type"), demo_login_store).
Proof.
  apply (proj2 (@token_types_do_not_mix demo_runtime demo_jwt demo_str
                  demo_settings demo_user "access-1" "refresh-1" 1000000
                  60000000 demo_login_store)).
  vm_compute. split; [discriminate|reflexivity].
Defined.

(** ** Logging out *)

(** X12.  Once [revoke_refresh_token] has run for a refresh token whose
    session is on record, that token no longer rotates: after any further
    [AuthService] calls, [refresh_tokens] with it raises
    [ValueError("Refresh token revoked")] and writes nothing. *)
Theorem revoked_token_cannot_rotate `{PyRuntime} `{Jwt}
    (settings : Settings) (db : Store) (token : Token) (jti : string)
    (session : Session) (now : Instant) :
  refresh_token_of settings now token jti →
  refresh_sessions db !! jti = Some session →
  ∃ db1,
    revoke_refresh_token settings token now db = (Return tt, db1)
    ∧ ∀ ops later a r,
        refresh_token_of settings later token jti →
        refresh_tokens settings token a r later (run_auth_ops settings ops db1)
        = (Raise (ValueError "Refresh token revoked"),
           run_auth_ops settings ops db1).
Proof.
  intros Htok Hs. eexists. split; [by apply revoke_refresh_token_known|].
  intros ops later a r Hlater.
  apply (refresh_tokens_revoked _ _ jti); [done|].
  apply run_auth_ops_revoked. eexists. split.
  - unfold with_sessions; cbn. by rewrite lookup_insert_eq.
  - apply isoformat_truthy.
Qed.

Lemma revoked_token_cannot_rotate_witness :
  ∃ db1,
    revoke_refresh_token demo_settings demo_refresh_token 2000000
      demo_login_store = (Return tt, db1)
    ∧ refresh_tokens demo_settings demo_refresh_token "access-2" "refresh-2"
        3000000 db1
      = (Raise (ValueError "Refresh token revoked"), db1).
Proof.
  destruct (revoked_token_cannot_rotate demo_settings demo_login_store
              demo_refresh_token "refresh-1" demo_session 2000000)
    as (db1 & Hrun & Hagain).
  - apply demo_refresh_token_of. lia.
  - vm_compute; reflexivity.
  - exists db1. split; [exact Hrun|].
    apply (Hagain [] 3000000 "access-2" "refresh-2").
    apply demo_refresh_token_of. lia.
Defined.

(** X13.  [revoke_refresh_token] with a decodable refresh token always
    returns.  It writes to the session of the token's [jti] and to nothing
    else: users, jobs and every other session are as before; when no session
    has that [jti] the store is unchanged. *)
Theorem revoke_touches_one_session `{PyRuntime} `{Jwt}
    (settings : Settings) (db : Store) (token : Token) (jti : string)
    (now : Instant) :
  refresh_token_of settings now token jti →
  ∃ db',
    revoke_refresh_token settings token now db = (Return tt, db')
    ∧ users db' = users db ∧ jobs db' = jobs db
    ∧ (∀ k, k ≠ jti → refresh_sessions db' !! k = refresh_sessions db !! k)
    ∧ (refresh_sessions db !! jti = None → db' = db).
Proof.
  intros Htok. destruct (refresh_sessions db !! jti) as [s|] eqn:Hs.
  - eexists. split; [by eapply revoke_refresh_token_known|].
    unfold with_sessions; cbn. repeat split; [|done].
    intros k Hk. by rewrite lookup_insert_ne.
  - exists db. split; [|done].
    destruct Htok as (claims & Hdec & Htype & Hjti & Hne).
    unfold revoke_refresh_token, _decode. run.
    rewrite Hdec, Htype, Hjti. rewrite bool_decide_eq_true_2 by done.
    rewrite truthy_Some_nonempty by done. cbn [negb from_option id].
    by apply revoke_refresh_session_unknown.
Qed.

Lemma revoke_touches_one_session_witness :
  ∃ db',
    revoke_refresh_token demo_settings demo_refresh_token 2000000
      (mkStore {[ "user-1" := demo_user ]} ∅ ∅) = (Return tt, db')
    ∧ db' = mkStore {[ "user-1" := demo_user ]} ∅ ∅.
Proof.
  destruct (revoke_touches_one_session demo_settings
              (mkStore {[ "user-1" := demo_user ]} ∅ ∅) demo_refresh_token
              "refresh-1" 2000000) as (db' & Hrun & _ & _ & _ & Hnone).
  - apply demo_refresh_token_of. lia.
  - exists db'. split; [exact Hrun|]. apply Hnone. reflexivity.
Defined.

(** ** Rotation that fails *)

(** X14.  A rotation that is refused writes nothing.  For a decodable
    refresh token: with no session on record [refresh_tokens] raises
    [ValueError("Refresh session not found")]; with a live session at or
    past its [expires_at], ["Refresh token expired"]; with a live,
    unexpired session whose user is missing or deactivated, ["User is not
    active"]; and when the drawn [refresh_jti] is already taken,
    [IntegrityError], the old session staying unrevoked. *)
Theorem refused_rotation_writes_nothing `{PyRuntime} `{Jwt}
    (settings : Settings) (db : Store) (token : Token) (jti : string)
    (a r : string) (now : Instant) :
  refresh_token_of settings now token jti →
  (refresh_sessions db !! jti = None →
   refresh_tokens settings token a r now db
   = (Raise (ValueError "Refresh session not found"), db))
  ∧ (∀ session t,
       refresh_sessions db !! jti = Some session →
       truthy (s_revoked_at session) = false →
       s_expires_at session ≠ "" →
       fromisoformat (s_expires_at session) = Some t → t ≤ now →
       refresh_tokens settings token a r now db
       = (Raise (ValueError "Refresh token expired"), db))
  ∧ (∀ session t,
       refresh_sessions db !! jti = Some session →
       truthy (s_revoked_at session) = false →
       fromisoformat (s_expires_at session) = Some t → now < t →
       (users db !! s_user_id session = None
        ∨ ∃ u, users db !! s_user_id session = Some u ∧ u_is_active u = 0) →
       refresh_tokens settings token a r now db
       = (Raise (ValueError "User is not active"), db))
  ∧ (∀ session t u,
       refresh_sessions db !! jti = Some session →
       truthy (s_revoked_at session) = false →
       fromisoformat (s_expires_at session) = Some t → now < t →
       users db !! s_user_id session = Some u → u_is_active u ≠ 0 →
       is_Some (refresh_sessions db !! r) →
       ∃ msg, refresh_tokens settings token a r now db
              = (Raise (IntegrityError msg), db)).
Proof.
  intros (claims & Hdec & Htype & Hjti & Hne).
  assert (∀ session, refresh_sessions db !! jti = session →
    refresh_tokens settings token a r now db
    = match session with
      | None => (Raise (ValueError "Refresh session not found"), db)
      | Some session =>
          if truthy (s_revoked_at session)
          then (Raise (ValueError "Refresh token revoked"), db)
          else
            match (if truthy (Some (s_expires_at session))
                   then match fromisoformat (s_expires_at session) with
                        | None => Some (ValueError "Invalid isoformat string")
                        | Some t => if t <=? now
                                    then Some (ValueError "Refresh token expired")
                                    else None
                        end
                   else None) with
            | Some e => (Raise e, db)
            | None =>
                match users db !! s_user_id session with
                | None => (Raise (ValueError "User is not active"), db)
                | Some user =>
                    if u_is_active user =? 0
                    then (Raise (ValueError "User is not active"), db)
                    else
                      match issue_token_pair settings user a r now db with
                      | (Raise e, db') => (Raise e, db')
                      | (Return issued, db') =>
                          match jwt_decode settings now (tp_refresh_token issued) with
                          | Raise e => (Raise e, db')
                          | Return new_claims =>
                              (Return issued,
                               (revoke_refresh_session jti (c_jti new_claims)
                                  now db').2)
                          end
                      end
                end
            end
      end) as Hsteps.
  { intros session Hs.
    unfold refresh_tokens, _decode, get_refresh_session, get_user_by_id. run.
    rewrite Hdec, Htype, Hjti. rewrite bool_decide_eq_true_2 by done.
    rewrite truthy_Some_nonempty by done. cbn [negb from_option id].
    rewrite Hs. destruct session as [session|]; [|done].
    destruct (truthy (s_revoked_at session)); [done|].
    destruct (truthy (Some (s_expires_at session))).
    - destruct (fromisoformat (s_expires_at session)) as [t|]; [|done].
      destruct (t <=? now); [done|].
      destruct (users db !! s_user_id session) as [user|]; [|done].
      destruct (u_is_active user =? 0); [done|].
      destruct (issue_token_pair settings user a r now db) as [[e|issued] db'];
        [done|].
      by destruct (jwt_decode settings now (tp_refresh_token issued)).
    - destruct (users db !! s_user_id session) as [user|]; [|done].
      destruct (u_is_active user =? 0); [done|].
      destruct (issue_token_pair settings user a r now db) as [[e|issued] db'];
        [done|].
      by destruct (jwt_decode settings now (tp_refresh_token issued)). }
  split; [|split; [|split]].
  - intros Hs. by rewrite (Hsteps None).
  - intros session t Hs Hrev Hne' Hexp Hle.
    rewrite (Hsteps (Some session)) by done. rewrite Hrev.
    rewrite truthy_Some_nonempty by done. rewrite Hexp.
    by destruct (Z.leb_spec t now); [|lia].
  - intros session t Hs Hrev Hexp Hlt Huser.
    rewrite (Hsteps (Some session)) by done. rewrite Hrev, Hexp.
    destruct (Z.leb_spec t now); [lia|].
    destruct (truthy (Some (s_expires_at session)));
      (destruct Huser as [-> | (u & -> & ->)]; done).
  - intros session t u Hs Hrev Hexp Hlt Hu Hact Htaken.
    rewrite (Hsteps (Some session)) by done. rewrite Hrev, Hexp, Hu.
    destruct (Z.leb_spec t now); [lia|].
    destruct (Z.eqb_spec (u_is_active u) 0); [done|].
    destruct (issue_token_pair_taken settings u a r now db Htaken) as [exn Hrun].
    assert (∃ msg, exn = IntegrityError msg) as [msg ->].
    { unfold issue_token_pair, create_refresh_session in Hrun. run.
      destruct Htaken as [s' Hs']. rewrite Hs' in Hrun.
      injection Hrun as <-. by eexists. }
    rewrite Hrun. exists msg. by destruct (truthy (Some (s_expires_at session))).
Qed.

Lemma refused_rotation_writes_nothing_witness :
  refresh_tokens demo_settings demo_refresh_token "access-2" "refresh-2" 2000000
    (mkStore {[ "user-1" := demo_user ]} ∅ ∅)
  = (Raise (ValueError "Refresh session not found"),
     mkStore {[ "user-1" := demo_user ]} ∅ ∅).
Proof.
  apply (proj1 (refused_rotation_writes_nothing demo_settings
                  (mkStore {[ "user-1" := demo_user ]} ∅ ∅) demo_refresh_token
                  "refresh-1" "access-2" "refresh-2" 2000000
                  (demo_refresh_token_of 2000000 ltac:(lia)))).
  reflexivity.
Defined.

(** ** The rotation chain *)

(** X15.  The refresh token handed out by a rotation is itself good for
    one rotation.  After [refresh_tokens] has replaced the session [jti]
    by [r1], a second call with the new token, while that token decodes,
    succeeds: it persists the session [r2], marks [r1] revoked with
    [replaced_by_jti = r2], and leaves [jti] revoked with
    [replaced_by_jti = r1], so the three sessions form the chain
    [jti], [r1], [r2] with only [r2] live. *)
Theorem rotated_token_rotates `{PyRuntime} `{Jwt}
    (settings : Settings) (db : Store) (token : Token) (jti : string)
    (session : Session) (user : User) (expiry : Instant)
    (a1 r1 a2 r2 : string) (now later : Instant) :
  refresh_token_of settings now token jti →
  refresh_sessions db !! jti = Some session →
  truthy (s_revoked_at session) = false →
  fromisoformat (s_expires_at session) = Some expiry → now < expiry →
  s_user_id session = u_user_id user →
  users db !! u_user_id user = Some user → u_is_active user ≠ 0 →
  refresh_sessions db !! r1 = None → refresh_sessions db !! r2 = None →
  r1 ≠ "" → r1 ≠ r2 →
  0 ≤ now → 0 < refresh_token_ttl_days settings →
  timestamp_int now * usec_per_second ≤ later
    < timestamp_int (now + timedelta_days (refresh_token_ttl_days settings))
      * usec_per_second →
  ∃ pair1 db1 pair2 db2,
    refresh_tokens settings token a1 r1 now db = (Return pair1, db1)
    ∧ refresh_tokens settings (tp_refresh_token pair1) a2 r2 later db1
      = (Return pair2, db2)
    ∧ (s_revoked_at <$> refresh_sessions db2 !! jti, 
       s_replaced_by_jti <$> refresh_sessions db2 !! jti)
      = (Some (Some (isoformat now)), Some (Some r1))
    ∧ (s_revoked_at <$> refresh_sessions db2 !! r1,
       s_replaced_by_jti <$> refresh_sessions db2 !! r1)
      = (Some (Some (isoformat later)), Some (Some r2))
    ∧ (s_revoked_at <$> refresh_sessions db2 !! r2,
       s_replaced_by_jti <$> refresh_sessions db2 !! r2)
      = (Some None, Some None).
Proof.
  intros Htok Hs Hrev Hexp Hlt Hsu Hu Hact Hf1 Hf2 Hr1 Hr12 Hnow Httl Hwin.
  assert (r1 ≠ jti) as Hr1j by congruence.
  assert (r2 ≠ jti) as Hr2j by congruence.
  assert (0 ≤ later) as Hlater.
  { unfold timestamp_int, usec_per_second in Hwin.
    pose proof (Z.quot_pos now 1000000 Hnow ltac:(lia)). lia. }
  assert (later < now + timedelta_days (refresh_token_ttl_days settings))
    as Hlive.
  { unfold timestamp_int, timedelta_days, usec_per_second in *.
    pose proof (Z.quot_rem'
      (now + refresh_token_ttl_days settings * 86400 * 1000000) 1000000) as Hq.
    pose proof (Z.rem_bound_pos
      (now + refresh_token_ttl_days settings * 86400 * 1000000) 1000000
      ltac:(lia) ltac:(lia)) as Hr. lia. }
  set (db1 := with_sessions <[jti := revoked_row session (Some r1) now]>
                (with_sessions <[r1 := issued_session settings user r1 now]> db)).
  exists (issued_pair settings user a1 r1 now), db1. eexists _, _.
  split.
  { eapply refresh_tokens_live; try done. by rewrite Hsu. }
  split.
  { eapply (refresh_tokens_live settings _ r1 a2 r2 later db1
              (issued_session settings user r1 now) user).
    - eexists. split; [by apply decode_built_claims|done].
    - unfold db1, with_sessions; cbn.
      rewrite lookup_insert_ne by done. by rewrite lookup_insert_eq.
    - done.
    - cbn. apply fromisoformat_isoformat.
    - exact Hlive.
    - done.
    - done.
    - unfold db1, with_sessions; cbn. by rewrite !lookup_insert_ne.
    - done.
    - done. }
  unfold db1, with_sessions; cbn.
  split; [|split].
  - rewrite !lookup_insert_ne by done. by rewrite lookup_insert_eq.
  - by rewrite lookup_insert_eq.
  - rewrite lookup_insert_ne by done. by rewrite lookup_insert_eq.
Qed.

Lemma rotated_token_rotates_witness :
  ∃ pair1 db1 pair2 db2,
    refresh_tokens demo_settings demo_refresh_token "access-2" "refresh-2"
      2000000 demo_login_store = (Return pair1, db1)
    ∧ refresh_tokens demo_settings (tp_refresh_token pair1) "access-3" "refresh-3"
        3000000 db1 = (Return pair2, db2)
    ∧ s_replaced_by_jti <$> refresh_sessions db2 !! "refresh-2"
      = Some (Some "refresh-3").
Proof.
  destruct (rotated_token_rotates demo_settings demo_login_store
              demo_refresh_token "refresh-1" demo_session demo_user
              1209601000000 "access-2" "refresh-2" "access-3" "refresh-3"
              2000000 3000000)
    as (pair1 & db1 & pair2 & db2 & Hrun1 & Hrun2 & _ & Hmid & _).
  - apply demo_refresh_token_of. lia.
  - vm_compute; reflexivity.
  - reflexivity.
  - vm_compute; reflexivity.
  - lia.
  - reflexivity.
  - vm_compute; reflexivity.
  - cbn. lia.
  - vm_compute; reflexivity.
  - vm_compute; reflexivity.
  - discriminate.
  - discriminate.
  - lia.
  - cbn. lia.
  - vm_compute. split; [discriminate|reflexivity].
  - exists pair1, db1, pair2, db2. split; [exact Hrun1|]. split; [exact Hrun2|].
    by injection Hmid as _ ->.
Defined.

(** ** Sessions are append-only *)

(** The session of [jti] is on record with these columns, revoked. *)
Definition revoked_link (jti : string) (s0 : Session) (db : Store) : Prop :=
  ∃ s, refresh_sessions db !! jti = Some s
       ∧ truthy (s_revoked_at s) = true
       ∧ s_replaced_by_jti s = s_replaced_by_jti s0
       ∧ s_jti s = s_jti s0 ∧ s_user_id s = s_user_id s0
       ∧ s_expires_at s = s_expires_at s0 ∧ s_created_at s = s_created_at s0.

Section AppendOnly.
Context `{PyRuntime} `{Jwt}.

(** The three ways [refresh_tokens] can leave the store. *)
Lemma refresh_tokens_store settings token a r now db :
  (refresh_tokens settings token a r now db).2 = db
  ∨ (∃ user, (refresh_tokens settings token a r now db).2
             = (issue_token_pair settings user a r now db).2)
  ∨ (∃ jti session user replaced,
       refresh_sessions db !! jti = Some session
       ∧ truthy (s_revoked_at session) = false
       ∧ (refresh_tokens settings token a r now db).2
         = (revoke_refresh_session jti replaced now
              (issue_token_pair settings user a r now db).2).2).
Proof.
  unfold refresh_tokens, _decode, get_refresh_session, get_user_by_id. run.
  destruct (jwt_decode settings now token) as [e|claims]; [by left|].
  destruct (negb (bool_decide _)); [by left|].
  destruct (negb (truthy (c_jti claims))); [by left|].
  destruct (refresh_sessions db !! default "" (c_jti claims))
    as [session|] eqn:Hs; [|by left].
  destruct (truthy (s_revoked_at session)) eqn:Hrev; [by left|].
  assert (∀ rest : Store → Outcome Exn TokenPair * Store,
            (rest db).2 = db
            ∨ (∃ user, (rest db).2 = (issue_token_pair settings user a r now db).2)
            ∨ (∃ jti session user replaced,
                 refresh_sessions db !! jti = Some session
                 ∧ truthy (s_revoked_at session) = false
                 ∧ (rest db).2
                   = (revoke_refresh_session jti replaced now
                        (issue_token_pair settings user a r now db).2).2) →
            ∀ check : Store → Outcome Exn unit * Store,
              (∀ s, check s = (Return tt, s) ∨ ∃ e, check s = (Raise e, s)) →
              (let (o, s') := check db in
               match o with
               | Raise e => (Raise e, s')
               | Return _ => rest s'
               end).2 = db
              ∨ (∃ user, (let (o, s') := check db in
                          match o with
                          | Raise e => (Raise e, s')
                          | Return _ => rest s'
                          end).2
                         = (issue_token_pair settings user a r now db).2)
              ∨ (∃ jti session user replaced,
                   refresh_sessions db !! jti = Some session
                   ∧ truthy (s_revoked_at session) = false
                   ∧ (let (o, s') := check db in
                      match o with
                      | Raise e => (Raise e, s')
                      | Return _ => rest s'
                      end).2
                     = (revoke_refresh_session jti replaced now
                          (issue_token_pair settings user a r now db).2).2))
    as Hcheck.
  { intros rest Hrest check Hc. destruct (Hc db) as [-> | [e ->]]; [done|by left]. }
  apply Hcheck.
  - destruct (users db !! s_user_id session) as [user|]; [|by left].
    destruct (u_is_active user =? 0); [by left|].
    destruct (issue_token_pair settings user a r now db) as [[e|issued] db1]
      eqn:Hissue.
    + right; left. exists user. by rewrite Hissue.
    + destruct (jwt_decode settings now (tp_refresh_token issued))
        as [e|new_claims].
      * right; left. exists user. by rewrite Hissue.
      * right; right. exists (default "" (c_jti claims)), session, user,
                              (c_jti new_claims).
        rewrite Hissue. done.
  - intros s. destruct (truthy (Some (s_expires_at session))); [|by left].
    destruct (fromisoformat (s_expires_at session)) as [t|]; [|right; by eexists].
    destruct (t <=? now); [right; by eexists|by left].
Qed.

Lemma create_refresh_session_link jti s0 new_jti user_id expires_at now :
  preserves (revoked_link jti s0)
    (create_refresh_session new_jti user_id expires_at now).
Proof.
  intros db (s & Hs & Hrest). unfold create_refresh_session. run.
  destruct (refresh_sessions db !! new_jti) eqn:Hnew; cbn; [by exists s|].
  exists s. split; [|done]. unfold with_sessions; cbn.
  rewrite lookup_insert_ne; [done|congruence].
Qed.

Lemma issue_token_pair_link jti s0 settings user a r now :
  preserves (revoked_link jti s0) (issue_token_pair settings user a r now).
Proof.
  unfold issue_token_pair. apply preserves_bind.
  - apply create_refresh_session_link.
  - intros []. apply preserves_ret.
Qed.

Lemma revoke_refresh_session_link jti s0 other replaced now db :
  revoked_link jti s0 db →
  (other = jti → replaced = None) →
  revoked_link jti s0 (revoke_refresh_session other replaced now db).2.
Proof.
  intros (s & Hs & Hrev & Hrb & Hid) Hsame. unfold revoke_refresh_session. run.
  unfold revoked_link, with_sessions; cbn.
  rewrite lookup_alter. case_decide as Hk; [subst other|by exists s].
  rewrite Hs, (Hsame eq_refl). eexists. split; [done|]. cbn.
  split; [apply isoformat_truthy|]. done.
Qed.

Lemma run_auth_op_link jti s0 settings op now db :
  revoked_link jti s0 db → revoked_link jti s0 (run_auth_op settings op now db).
Proof.
  intros Hlink. destruct op as [user a r|token a r|token]; cbn.
  - by apply issue_token_pair_link.
  - destruct (refresh_tokens_store settings token a r now db)
      as [-> | [[user ->] | (jti' & session & user & replaced & Hs & Hrev & ->)]].
    + done.
    + by apply issue_token_pair_link.
    + apply revoke_refresh_session_link; [by apply issue_token_pair_link|].
      intros ->. destruct Hlink as (s & Hs' & Hrev' & _). congruence.
  - unfold revoke_refresh_token, _decode. run.
    destruct (jwt_decode settings now token) as [e|claims]; [done|].
    destruct (negb (bool_decide _)); [done|].
    destruct (negb (truthy (c_jti claims))); [done|].
    by apply revoke_refresh_session_link.
Qed.

End AppendOnly.

(** X16.  A revoked session is never deleted, never un-revoked and never
    relinked: after any sequence of [issue_token_pair], [refresh_tokens]
    and [revoke_refresh_token] calls with any arguments it is still on
    record, still revoked, with the [replaced_by_jti], [jti], owner,
    [expires_at] and [created_at] it had. *)
Theorem revoked_session_is_frozen `{PyRuntime} `{Jwt}
    (settings : Settings) (ops : list (AuthOp * Instant)) (db : Store)
    (jti : string) (s0 : Session) :
  refresh_sessions db !! jti = Some s0 →
  truthy (s_revoked_at s0) = true →
  ∃ s, refresh_sessions (run_auth_ops settings ops db) !! jti = Some s
       ∧ truthy (s_revoked_at s) = true
       ∧ s_replaced_by_jti s = s_replaced_by_jti s0
       ∧ s_jti s = s_jti s0 ∧ s_user_id s = s_user_id s0
       ∧ s_expires_at s = s_expires_at s0 ∧ s_created_at s = s_created_at s0.
Proof.
  intros Hs Hrev.
  assert (revoked_link jti s0 db) as Hlink by by exists s0.
  clear Hs Hrev. revert db Hlink.
  induction ops as [|[op now] ops IH]; intros db Hlink; cbn; [exact Hlink|].
  apply IH. by apply run_auth_op_link.
Qed.

Definition demo_logged_out_store : Store :=
  (revoke_refresh_token demo_settings demo_refresh_token 2000000
     demo_login_store).2.

Definition demo_revoked_session : Session :=
  mkSession "refresh-1" "user-1" "T1209601000000" "T1000000" (Some "T2000000")
            None.

Lemma revoked_session_is_frozen_witness :
  ∃ s,
    refresh_sessions
      (run_auth_ops demo_settings
         [ (Revoke_refresh_token demo_refresh_token, 3000000);
           (Refresh_tokens demo_refresh_token "access-4" "refresh-4", 4000000);
           (Issue_token_pair demo_user "access-5" "refresh-5", 5000000) ]
         demo_logged_out_store) !! "refresh-1" = Some s
    ∧ truthy (s_revoked_at s) = true
    ∧ s_replaced_by_jti s = None.
Proof.
  destruct (revoked_session_is_frozen demo_settings
              [ (Revoke_refresh_token demo_refresh_token, 3000000);
                (Refresh_tokens demo_refresh_token "access-4" "refresh-4", 4000000);
                (Issue_token_pair demo_user "access-5" "refresh-5", 5000000) ]
              demo_logged_out_store "refresh-1" demo_revoked_session)
    as (s & Hs & Hrev & Hrb & _).
  - vm_compute; reflexivity.
  - reflexivity.
  - exists s. split; [exact Hs|]. split; [exact Hrev|]. exact Hrb.
Defined.

(** * Accounts *)

(** The rows [get_user_by_email] chooses from. *)
Definition email_matches (email : string) (db : Store) : list User :=
  filter (λ u, sql_lower <$> u_email u = Some (sql_lower email))
         (map_to_list (users db)).*2.

Lemma get_user_by_email_run email db :
  get_user_by_email email db = (Return (head (email_matches email db)), db).
Proof. done. Qed.

Lemma email_matches_insert email db uuid row :
  users db !! uuid = None →
  email_matches email db = [] →
  sql_lower <$> u_email row = Some (sql_lower email) →
  email_matches email (with_users <[uuid := row]> db) = [row].
Proof.
  intros Hfresh Hnone Hrow. unfold email_matches, with_users in *; cbn.
  apply Permutation_singleton_r.
  rewrite (map_to_list_insert (users db) uuid row Hfresh), fmap_cons.
  cbn [snd]. rewrite filter_cons_True by done. by rewrite Hnone.
Qed.

Section Accounts.
Context `{PyRuntime} `{PasswordContext}.

Lemma create_user_fresh email password_hash full_name role uuid now db :
  users db !! uuid = None →
  email_matches email db = [] →
  create_user email password_hash full_name role uuid now db
  = (Return (mkUser uuid (Some email) None full_name role 1
               (isoformat now) (isoformat now)),
     with_users
       <[uuid := mkUser uuid (Some email) (Some password_hash) full_name role 1
                   (isoformat now) (isoformat now)]> db).
Proof.
  intros Hfresh Hnone. unfold create_user. run.
  rewrite bool_decide_eq_false_2 by (rewrite Hfresh; by intros [? ?]).
  rewrite bool_decide_eq_false_2.
  - unfold with_users; cbn. by rewrite lookup_insert_eq.
  - intros (k & u & Hk & Hu).
    assert (u ∈ email_matches email db) as Hin; [|by rewrite Hnone in Hin;
      apply elem_of_nil in Hin].
    unfold email_matches. apply list_elem_of_filter. split; [by rewrite Hu|].
    apply list_elem_of_fmap. exists (k, u). split; [done|].
    by apply elem_of_map_to_list.
Qed.

End Accounts.

(** X17.  Registering an e-mail that matches no account, under a fresh
    id, stores the user and returns the row without its password hash.
    From then on, under any ASCII-case variant of that e-mail:
    [authenticate_user] with the registered password returns the user's
    row with [last_seen_at] moved to the time of the login; with a
    password the hash does not verify it raises
    [ValueError("Invalid email or password")] and writes nothing; and
    registering again raises [ValueError("An account with this email
    already exists")]. *)
Theorem register_then_authenticate `{PyRuntime} `{PasswordContext}
    (email password : string) (full_name : option string) (role : string)
    (salt uuid : string) (now : Instant) (db : Store) :
  email_matches email db = [] →
  users db !! uuid = None →
  ∃ user db1,
    register_user email password full_name role salt uuid now db
    = (Return user, db1)
    ∧ u_user_id user = uuid ∧ u_email user = Some email ∧ u_role user = role
    ∧ u_password_hash user = None
    ∧ (∀ email' later,
         sql_lower email' = sql_lower email →
         ∃ user' db2,
           authenticate_user email' password later db1 = (Return user', db2)
           ∧ u_user_id user' = uuid ∧ u_email user' = Some email
           ∧ u_role user' = role
           ∧ u_last_seen_at user' = isoformat later)
    ∧ (∀ email' wrong later,
         sql_lower email' = sql_lower email →
         pwd_verify wrong (pwd_hash password salt) = Return false →
         authenticate_user email' wrong later db1
         = (Raise (ValueError "Invalid email or password"), db1))
    ∧ (∀ email' password' full_name' role' salt' uuid' later,
         sql_lower email' = sql_lower email →
         register_user email' password' full_name' role' salt' uuid' later db1
         = (Raise (ValueError "An account with this email already exists"), db1)).
Proof.
  intros Hnone Hfresh.
  set (row := mkUser uuid (Some email) (Some (pwd_hash password salt)) full_name
                role 1 (isoformat now) (isoformat now)).
  set (db1 := with_users <[uuid := row]> db).
  assert (∀ email', sql_lower email' = sql_lower email →
            email_matches email' db1 = [row]) as Hfind.
  { intros email' Hlow. unfold email_matches. rewrite Hlow.
    by apply email_matches_insert. }
  exists (public_columns row), db1. split.
  { unfold register_user. run. rewrite get_user_by_email_run, Hnone. cbn [head].
    by rewrite create_user_fresh. }
  do 4 (split; [done|]).
  split; [|split].
  - intros email' later Hlow. eexists _, _. split.
    + unfold authenticate_user, update_user_last_seen, get_user_by_id. run.
      rewrite get_user_by_email_run, (Hfind email' Hlow). cbn [head].
      cbn [u_is_active row Z.eqb u_password_hash].
      rewrite truthy_Some_nonempty by apply pwd_hash_nonempty.
      cbn [negb from_option id]. rewrite pwd_verify_hash. cbn [negb].
      unfold with_users; cbn [users u_user_id]. 
      rewrite lookup_alter_eq. unfold db1, with_users; cbn [users].
      rewrite lookup_insert_eq. cbn [fmap option_fmap option_map from_option].
      reflexivity.
    + done.
  - intros email' wrong later Hlow Hwrong.
    unfold authenticate_user. run.
    rewrite get_user_by_email_run, (Hfind email' Hlow). cbn [head].
    cbn [u_is_active row Z.eqb u_password_hash].
    rewrite truthy_Some_nonempty by apply pwd_hash_nonempty.
    cbn [negb from_option id]. by rewrite Hwrong.
  - intros email' password' full_name' role' salt' uuid' later Hlow.
    unfold register_user. run.
    by rewrite get_user_by_email_run, (Hfind email' Hlow).
Qed.

Lemma register_then_authenticate_witness :
  ∃ user db1,
    register_user "Owner@Example.com" "Str0ngPass123!" None "user" "s1" "user-9"
      1000000 empty_store = (Return user, db1)
    ∧ (∃ user' db2,
         authenticate_user "owner@example.COM" "Str0ngPass123!" 2000000 db1
         = (Return user', db2) ∧ u_user_id user' = "user-9")
    ∧ authenticate_user "owner@example.com" "guess" 2000000 db1
      = (Raise (ValueError "Invalid email or password"), db1).
Proof.
  destruct (register_then_authenticate "Owner@Example.com" "Str0ngPass123!"
              None "user" "s1" "user-9" 1000000 empty_store)
    as (user & db1 & Hrun & _ & _ & _ & _ & Hlogin & Hwrong & _).
  - vm_compute; reflexivity.
  - reflexivity.
  - exists user, db1. split; [exact Hrun|]. split.
    + destruct (Hlogin "owner@example.COM" 2000000 ltac:(vm_compute; reflexivity))
        as (user' & db2 & Hauth & Hid & _).
      by exists user', db2.
    + apply Hwrong; vm_compute; reflexivity.
Defined.
